(** * UPC-A renderer: a shallow embedding of [upc-a-renderer.js]

    The JavaScript module is translated function by function.  Strings are
    [String.string]; the only character test the module performs is the
    regular expression [\D], which erases every code unit outside ['0'..'9'],
    so the byte alphabet of [ascii] loses nothing.  The integers handled by
    the checksum are JavaScript numbers that may be [NaN]; they are modelled
    by [jsnum].  A JavaScript exception is the [Throw] constructor of
    [result], carrying the message of the [Error] object.  The renderers
    write to a canvas or to an SVG element; what they write is returned as a
    value: the size and the list of drawing calls, or the attributes and the
    list of child elements. *)

From Stdlib Require Import ZArith List Bool Ascii String Lia.
From Stdlib Require Import DecimalString PrimFloat Uint63.
Import ListNotations.

Local Open Scope string_scope.
Local Open Scope Z_scope.

(** ** JavaScript primitives used by the module *)

Module JS.

(** Numbers that stay integral in the module, or are [NaN]. *)
Inductive jsnum : Type :=
| NaN : jsnum
| Int : Z -> jsnum.

Definition add (a b : jsnum) : jsnum :=
  match a, b with
  | Int x, Int y => Int (x + y)
  | _, _ => NaN
  end.

Definition sub (a b : jsnum) : jsnum :=
  match a, b with
  | Int x, Int y => Int (x - y)
  | _, _ => NaN
  end.

Definition mul (a b : jsnum) : jsnum :=
  match a, b with
  | Int x, Int y => Int (x * y)
  | _, _ => NaN
  end.

(** [a % b]: the remainder takes the sign of the dividend. *)
Definition rem (a b : jsnum) : jsnum :=
  match a, b with
  | Int x, Int y => if y =? 0 then NaN else Int (Z.rem x y)
  | _, _ => NaN
  end.

(** [a === b] on numbers: [NaN] is different from everything. *)
Definition strict_eq (a b : jsnum) : bool :=
  match a, b with
  | Int x, Int y => x =? y
  | _, _ => false
  end.

(** [String(n)], as performed by [+] with a string and by template
    literals. *)
Definition toString (n : jsnum) : string :=
  match n with
  | NaN => "NaN"
  | Int z => NilZero.string_of_int (Z.to_int z)
  end.

(** The character class [\d]. *)
Definition isDigit (c : ascii) : bool :=
  ((48 <=? nat_of_ascii c) && (nat_of_ascii c <=? 57))%nat.

(** [s.replace(/\D/g, '')]. *)
Fixpoint stripNonDigits (s : string) : string :=
  match s with
  | EmptyString => EmptyString
  | String c s' =>
      if isDigit c then String c (stripNonDigits s') else stripNonDigits s'
  end.

Fixpoint repeat (c : ascii) (n : nat) : string :=
  match n with
  | O => EmptyString
  | S n' => String c (repeat c n')
  end.

(** [s.padStart(n, c)] for a one-character filler. *)
Definition padStart (n : nat) (c : ascii) (s : string) : string :=
  repeat c (n - String.length s) ++ s.

(** [s.substring(a, b)] and [s.slice(a, b)] for [0 <= a <= b]. *)
Definition substring (a b : nat) (s : string) : string :=
  String.substring a (b - a) s.

(** [s.slice(a)] for [0 <= a]. *)
Fixpoint sliceFrom (a : nat) (s : string) : string :=
  match a, s with
  | O, _ => s
  | S a', String _ s' => sliceFrom a' s'
  | S _, EmptyString => EmptyString
  end.

(** [s[i]]; [None] is [undefined]. *)
Definition charAt (s : string) (i : nat) : option ascii := String.get i s.

(** [parseInt(s[i])]: the argument is one character or [undefined]. *)
Definition parseInt (c : option ascii) : jsnum :=
  match c with
  | Some c => if isDigit c then Int (Z.of_nat (nat_of_ascii c) - 48) else NaN
  | None => NaN
  end.

(** [a[n]] on an array; [None] is [undefined]. *)
Definition arrayGet {A : Type} (a : list A) (n : jsnum) : option A :=
  match n with
  | Int z => if z <? 0 then None else nth_error a (Z.to_nat z)
  | NaN => None
  end.

(** [s + v] where [v] is a string or [undefined]. *)
Definition appendValue (s : string) (v : option string) : string :=
  s ++ match v with Some t => t | None => "undefined" end.

(** [s.includes(t)]. *)
Fixpoint includes (s t : string) : bool :=
  String.prefix t s ||
  match s with
  | EmptyString => false
  | String _ s' => includes s' t
  end.

End JS.

Import JS.

(** ** Results of functions that may throw *)

Inductive result (A : Type) : Type :=
| Return : A -> result A
| Throw : string -> result A.

Arguments Return {A} _.
Arguments Throw {A} _.

Definition bind {A B : Type} (r : result A) (k : A -> result B) : result B :=
  match r with
  | Return a => k a
  | Throw m => Throw m
  end.

Notation "x <- r ;; k" := (bind r (fun x => k))
  (at level 61, r at next level, right associativity).

(** ** Encoding tables *)

Definition L_CODES : list string :=
  [ "0001101"; "0011001"; "0010011"; "0111101"; "0100011";
    "0110001"; "0101111"; "0111011"; "0110111"; "0001011" ].

Definition R_CODES : list string :=
  [ "1110010"; "1100110"; "1101100"; "1000010"; "1011100";
    "1001110"; "1010000"; "1000100"; "1001000"; "1110100" ].

Definition SVG_NS : string := "http://www.w3.org/2000/svg".

(** ** calculateChecksum *)

(** The body of [for (let i = 0; i < 11; i++) sum += ...], with [n] the
    number of iterations still to run. *)
Fixpoint checksumLoop (code11 : string) (n i : nat) (sum : jsnum) : jsnum :=
  match n with
  | O => sum
  | S n' =>
      let weight := if (i mod 2 =? 0)%nat then Int 3 else Int 1 in
      checksumLoop code11 n' (S i)
        (add sum (mul (parseInt (charAt code11 i)) weight))
  end.

Definition calculateChecksum (code11 : string) : jsnum :=
  let code11 := stripNonDigits code11 in
  let code11 :=
    if (String.length code11 <? 11)%nat then padStart 11 "0" code11
    else code11 in
  let code11 := substring 0 11 code11 in
  let sum := checksumLoop code11 11 0 (Int 0) in
  rem (sub (Int 10) (rem sum (Int 10))) (Int 10).

(** ** normalizeInput *)

Record Options : Type := { checksum : option string }.

(** The default parameter value [options = {}]. *)
Definition noOptions : Options := {| checksum := None |}.

(** [options.checksum || 'auto']: [undefined] and the empty string are
    falsy. *)
Definition checksumModeOf (options : Options) : string :=
  match checksum options with
  | None => "auto"
  | Some s => if String.eqb s "" then "auto" else s
  end.

Definition normalizeInput (code : string) (options : Options) : result string :=
  let code := stripNonDigits code in
  let checksumMode := checksumModeOf options in
  if (String.length code =? 11)%nat then
    Return (code ++ toString (calculateChecksum code))
  else if (String.length code =? 12)%nat then
    let providedCheck := parseInt (charAt code 11) in
    let calculatedCheck := calculateChecksum (substring 0 11 code) in
    if String.eqb checksumMode "validate" then
      if negb (strict_eq providedCheck calculatedCheck) then
        Throw ("Invalid UPC-A checksum: expected " ++ toString calculatedCheck
               ++ ", got " ++ toString providedCheck)
      else Return code
    else if String.eqb checksumMode "recalculate" then
      Return (substring 0 11 code ++ toString calculatedCheck)
    else
      Return (substring 0 11 code ++ toString calculatedCheck)
  else if (String.length code <? 11)%nat then
    let code := padStart 11 "0" code in
    Return (code ++ toString (calculateChecksum code))
  else
    Throw "UPC-A requires 11 or 12 digits".

(** ** validate *)

Definition validate (code : string) : bool :=
  let code := stripNonDigits code in
  if (String.length code =? 11)%nat then true
  else if (String.length code =? 12)%nat then
    strict_eq (parseInt (charAt code 11))
              (calculateChecksum (substring 0 11 code))
  else if (0 <? String.length code)%nat && (String.length code <? 11)%nat
  then true
  else false.

(** ** formatUPC *)

(** The body of [formatUPC], over the function it calls when the sanitized
    input does not have twelve characters. *)
Definition formatUPCWith (normalizeInput : string -> Options -> result string)
           (code12 : string) : result string :=
  let code12 := stripNonDigits code12 in
  code12 <- (if negb (String.length code12 =? 12)%nat
             then normalizeInput code12 noOptions
             else Return code12) ;;
  Return (substring 0 1 code12 ++ "-" ++
          substring 1 6 code12 ++ "-" ++
          substring 6 11 code12 ++ "-" ++
          sliceFrom 11 code12).

Definition formatUPC (code12 : string) : result string :=
  formatUPCWith normalizeInput code12.

(** ** encode *)

Record Encoded : Type := { encoding : string; fullCode : string }.

(** The body of [for (let i = a; i < b; i++) encoding += TABLE[digit]], with
    [n] the number of iterations still to run. *)
Fixpoint encodeLoop (table : list string) (fullCode : string) (n i : nat)
         (encoding : string) : string :=
  match n with
  | O => encoding
  | S n' =>
      let digit := parseInt (charAt fullCode i) in
      encodeLoop table fullCode n' (S i)
        (appendValue encoding (arrayGet table digit))
  end.

Definition encode (code : string) (options : Options) : result Encoded :=
  fullCode <- normalizeInput code options ;;
  let encoding := "101" in
  let encoding := encodeLoop L_CODES fullCode 6 0 encoding in
  let encoding := encoding ++ "01010" in
  let encoding := encodeLoop R_CODES fullCode 6 6 encoding in
  let encoding := encoding ++ "101" in
  Return {| encoding := encoding; fullCode := fullCode |}.

(** ** Rendering

    The layout arithmetic runs on JavaScript numbers and uses the fraction
    [0.7].  The renderers are written over an arbitrary implementation
    [Number] of the operations they use; nothing is assumed about it, so what
    is proved of them holds for IEEE doubles, where [+] is not associative,
    as for exact rationals. *)

Class Number (num : Type) : Type := {
  lit : Z -> num;               (* an integer literal, or a string length *)
  lit_0_5 : num;                (* 0.5 *)
  lit_0_7 : num;                (* 0.7 *)
  nadd : num -> num -> num;
  nsub : num -> num -> num;
  nmul : num -> num -> num;
  ndiv : num -> num -> num;
  ngt : num -> num -> bool
}.

Declare Scope num_scope.
Delimit Scope num_scope with num.
Infix "+" := nadd : num_scope.
Infix "-" := nsub : num_scope.
Infix "*" := nmul : num_scope.
Infix "/" := ndiv : num_scope.
Infix ">?" := ngt (at level 70, no associativity) : num_scope.

(** The options object a caller passes: every property may be absent. *)
Module Opt.
Record t {num : Type} : Type := make {
  moduleWidth : option num;
  height : option num;
  guardExtend : option num;
  fontSize : option num;
  smallDigitFontSize : option num;
  textMargin : option num;
  quietZone : option num;
  outerDigitGap : option num;
  paddingLeft : option num;
  paddingRight : option num;
  paddingTop : option num;
  paddingBottom : option num;
  background : option string;
  foreground : option string;
  font : option string;
  style : option string;
  checksum : option string
}.
Arguments t : clear implicits.

(** The empty object [{}]. *)
Definition none {num : Type} : t num :=
  make num None None None None None None None None None None None None
       None None None None None.
End Opt.

Section Rendering.

Context {num : Type} {N : Number num}.
Local Open Scope num_scope.

(** The object [opts] with every property present.  Its [checksum]
    property is named [checksumSetting] here. *)
Record Settings : Type := {
  moduleWidth : num;
  height : num;
  guardExtend : num;
  fontSize : num;
  smallDigitFontSize : num;
  textMargin : num;
  quietZone : num;
  outerDigitGap : num;
  paddingLeft : num;
  paddingRight : num;
  paddingTop : num;
  paddingBottom : num;
  background : string;
  foreground : string;
  font : string;
  style : string;
  checksumSetting : string
}.

Definition quote : ascii := ascii_of_nat 34.

Definition DEFAULTS : Settings := {|
  moduleWidth := lit 2;
  height := lit 70;
  guardExtend := lit 10;
  fontSize := lit 14;
  smallDigitFontSize := lit 10;
  textMargin := lit 2;
  quietZone := lit 9;
  outerDigitGap := lit 2;
  paddingLeft := lit 0;
  paddingRight := lit 0;
  paddingTop := lit 0;
  paddingBottom := lit 0;
  background := "#FFFFFF";
  foreground := "#000000";
  font := String quote ("OCR-B" ++ String quote (", " ++
          String quote ("Courier New" ++ String quote ", monospace")));
  style := "notched";
  checksumSetting := "auto"
|}.

Definition orDefault {A : Type} (given : option A) (default : A) : A :=
  match given with
  | Some v => v
  | None => default
  end.

(** [{ ...defaults, ...options }]. *)
Definition mergeOptions (defaults : Settings) (options : Opt.t num)
  : Settings := {|
  moduleWidth := orDefault (Opt.moduleWidth options) (moduleWidth defaults);
  height := orDefault (Opt.height options) (height defaults);
  guardExtend := orDefault (Opt.guardExtend options) (guardExtend defaults);
  fontSize := orDefault (Opt.fontSize options) (fontSize defaults);
  smallDigitFontSize :=
    orDefault (Opt.smallDigitFontSize options) (smallDigitFontSize defaults);
  textMargin := orDefault (Opt.textMargin options) (textMargin defaults);
  quietZone := orDefault (Opt.quietZone options) (quietZone defaults);
  outerDigitGap :=
    orDefault (Opt.outerDigitGap options) (outerDigitGap defaults);
  paddingLeft := orDefault (Opt.paddingLeft options) (paddingLeft defaults);
  paddingRight :=
    orDefault (Opt.paddingRight options) (paddingRight defaults);
  paddingTop := orDefault (Opt.paddingTop options) (paddingTop defaults);
  paddingBottom :=
    orDefault (Opt.paddingBottom options) (paddingBottom defaults);
  background := orDefault (Opt.background options) (background defaults);
  foreground := orDefault (Opt.foreground options) (foreground defaults);
  font := orDefault (Opt.font options) (font defaults);
  style := orDefault (Opt.style options) (style defaults);
  checksumSetting :=
    orDefault (Opt.checksum options) (checksumSetting defaults)
|}.

(** [encoding[i] === '1']. *)
Definition isOne (c : option ascii) : bool :=
  match c with
  | Some c => Ascii.eqb c "1"
  | None => false
  end.

(** [(i < 3) || (i >= 45 && i < 50) || (i >= 92)]. *)
Definition isGuard (i : nat) : bool :=
  ((i <? 3) || ((45 <=? i) && (i <? 50)) || (92 <=? i))%nat.

(** *** The canvas renderer *)

(** What a 2D context receives.  [SetFont size family] is the assignment
    of the template literal [`${size}px ${family}`]. *)
Inductive CanvasOp : Type :=
| SetFillStyle (color : string)
| FillRect (x y w h : num)
| SetFont (size : num) (family : string)
| SetTextAlign (align : string)
| SetTextBaseline (baseline : string)
| FillText (text : option ascii) (x y : num).

(** A canvas after [render]: assigning its width and height clears it, so
    its state is its size and the operations received since. *)
Record Canvas : Type := {
  canvasWidth : num;
  canvasHeight : num;
  canvasOps : list CanvasOp
}.

(** The loop that draws the bars, [n] iterations still to run, at module
    index [i] and abscissa [x]. *)
Fixpoint canvasBars (encoding style : string)
         (offsetY moduleWidth height guardHeight : num)
         (n i : nat) (x : num) : list CanvasOp :=
  match n with
  | O => []
  | S n' =>
      let barHeight :=
        if String.eqb style "notched" && isGuard i then guardHeight
        else height in
      (if isOne (charAt encoding i)
       then [FillRect x offsetY moduleWidth barHeight] else [])
      ++ canvasBars encoding style offsetY moduleWidth height guardHeight
           n' (S i) (x + moduleWidth)
  end.

(** [for (let i = 0; i < 5; i++) ctx.fillText(fullCode[i + k], ...)]. *)
Definition canvasDigits (fullCode : string) (k : nat)
           (start moduleWidth textY : num) : list CanvasOp :=
  map (fun i : nat =>
         let digitX :=
           start + (lit (Z.of_nat i) + lit_0_5) * lit 7 * moduleWidth in
         FillText (charAt fullCode (i + k)) digitX textY)
      (seq 0 5).

(** [render(canvas, code, options)].  The first argument is the canvas the
    caller's element or selector resolves to; [None] is an argument with no
    such element behind it, or one without [getContext]. *)
Definition render (canvas : option Canvas) (code : string)
           (options : Opt.t num) : result Canvas :=
  match canvas with
  | None => Throw "Invalid canvas element"
  | Some _ =>
      let opts := mergeOptions DEFAULTS options in
      let moduleWidth := moduleWidth opts in
      let height := height opts in
      let guardExtend := guardExtend opts in
      let fontSize := fontSize opts in
      let smallDigitFontSize := smallDigitFontSize opts in
      let textMargin := textMargin opts in
      let quietZone := quietZone opts in
      let outerDigitGap := outerDigitGap opts in
      let paddingLeft := paddingLeft opts in
      let paddingRight := paddingRight opts in
      let paddingTop := paddingTop opts in
      let paddingBottom := paddingBottom opts in
      let background := background opts in
      let foreground := foreground opts in
      let font := font opts in
      let style := style opts in
      let checksum := checksumSetting opts in
      e <- encode code {| checksum := Some checksum |} ;;
      let encoding := encoding e in
      let fullCode := fullCode e in
      let encodingLength := lit (Z.of_nat (String.length encoding)) in
      let barcodeWidth := encodingLength * moduleWidth in
      let guardHeight :=
        if String.eqb style "notched" then height + guardExtend
        else height in
      let quietZonePx := quietZone * moduleWidth in
      let outerDigitWidth := smallDigitFontSize * lit_0_7 in
      let leftOuterSpace := outerDigitWidth + outerDigitGap in
      let rightOuterSpace := outerDigitWidth + outerDigitGap in
      let contentWidth :=
        leftOuterSpace + quietZonePx + barcodeWidth + quietZonePx
        + rightOuterSpace in
      let contentHeight := guardHeight + fontSize + textMargin in
      let totalWidth := contentWidth + paddingLeft + paddingRight in
      let totalHeight := contentHeight + paddingTop + paddingBottom in
      let barcodeStartX := paddingLeft + leftOuterSpace + quietZonePx in
      let offsetY := paddingTop in
      let bars :=
        canvasBars encoding style offsetY moduleWidth height guardHeight
          (String.length encoding) 0 barcodeStartX in
      let textY := offsetY + height + textMargin in
      let text :=
        if fontSize >? lit 0 then
          let smallDigitY :=
            textY + (fontSize - smallDigitFontSize) / lit 2 in
          let leftStart := barcodeStartX + lit 3 * moduleWidth in
          let rightStart := barcodeStartX + lit 50 * moduleWidth in
          let endGuardX := barcodeStartX + encodingLength * moduleWidth in
          ([ SetFillStyle foreground;
            SetFont smallDigitFontSize font;
            SetTextAlign "right";
            SetTextBaseline "top";
            FillText (charAt fullCode 0) (barcodeStartX - outerDigitGap)
                     smallDigitY;
            SetFont fontSize font;
            SetTextAlign "center" ]
          ++ canvasDigits fullCode 1 leftStart moduleWidth textY
          ++ canvasDigits fullCode 6 rightStart moduleWidth textY
          ++ [ SetFont smallDigitFontSize font;
               SetTextAlign "left";
               FillText (charAt fullCode 11) (endGuardX + outerDigitGap)
                        smallDigitY ])%list
        else [] in
      Return {|
        canvasWidth := totalWidth;
        canvasHeight := totalHeight;
        canvasOps :=
          ([ SetFillStyle background;
             FillRect (lit 0) (lit 0) totalWidth totalHeight;
             SetFillStyle foreground ]
           ++ bars ++ text)%list
      |}
  end.

(** *** The SVG renderer *)

(** The value given to [setAttribute]: a number, a string, or the template
    literal [`0 0 ${w} ${h}`] of the view box. *)
Inductive AttrValue : Type :=
| NumValue (n : num)
| StrValue (s : string)
| ViewBoxValue (w h : num).

Definition Attrs : Type := list (string * AttrValue).

Fixpoint setAttribute (name : string) (value : AttrValue) (attrs : Attrs)
  : Attrs :=
  match attrs with
  | [] => [(name, value)]
  | (k, v) :: rest =>
      if String.eqb k name then (k, value) :: rest
      else (k, v) :: setAttribute name value rest
  end.

Fixpoint getAttribute (name : string) (attrs : Attrs) : option AttrValue :=
  match attrs with
  | [] => None
  | (k, v) :: rest =>
      if String.eqb k name then Some v else getAttribute name rest
  end.

(** The elements [renderSVG] creates: [rect] and [text]. *)
Inductive SvgNode : Type :=
| RectNode (attrs : Attrs)
| TextNode (attrs : Attrs) (textContent : option ascii).

Record Svg : Type := {
  svgAttrs : Attrs;
  svgChildren : list SvgNode
}.

Definition svgBar (x offsetY moduleWidth barHeight : num)
           (foreground : string) : SvgNode :=
  RectNode
    (setAttribute "fill" (StrValue foreground)
    (setAttribute "height" (NumValue barHeight)
    (setAttribute "width" (NumValue moduleWidth)
    (setAttribute "y" (NumValue offsetY)
    (setAttribute "x" (NumValue x) []))))).

(** The loop that appends the bars, as [canvasBars]. *)
Fixpoint svgBars (encoding style foreground : string)
         (offsetY moduleWidth height guardHeight : num)
         (n i : nat) (x : num) : list SvgNode :=
  match n with
  | O => []
  | S n' =>
      let barHeight :=
        if String.eqb style "notched" && isGuard i then guardHeight
        else height in
      (if isOne (charAt encoding i)
       then [svgBar x offsetY moduleWidth barHeight foreground]
       else [])
      ++ svgBars encoding style foreground offsetY moduleWidth height
           guardHeight n' (S i) (x + moduleWidth)
  end.

Definition svgText (x y : num) (anchor font : string) (size : num)
           (foreground : string) (content : option ascii) : SvgNode :=
  TextNode
    (setAttribute "fill" (StrValue foreground)
    (setAttribute "font-size" (NumValue size)
    (setAttribute "font-family" (StrValue font)
    (setAttribute "text-anchor" (StrValue anchor)
    (setAttribute "y" (NumValue y)
    (setAttribute "x" (NumValue x) []))))))
    content.

(** [for (let i = 0; i < 5; i++) { ... fullCode[i + k] ... }]. *)
Definition svgDigits (fullCode : string) (k : nat)
           (start moduleWidth textY fontSize : num)
           (font foreground : string) : list SvgNode :=
  map (fun i : nat =>
         let digitX :=
           start + (lit (Z.of_nat i) + lit_0_5) * lit 7 * moduleWidth in
         svgText digitX textY "middle" font fontSize foreground
                 (charAt fullCode (i + k)))
      (seq 0 5).

(** [renderSVG(svg, code, options)].  [None] is an argument that resolves to
    no element.  The attributes the element had are kept, its children are
    dropped by [svg.innerHTML = '']. *)
Definition renderSVG (svg : option Svg) (code : string)
           (options : Opt.t num) : result Svg :=
  match svg with
  | None => Throw "Invalid SVG element"
  | Some svg =>
      let opts := mergeOptions DEFAULTS options in
      let moduleWidth := moduleWidth opts in
      let height := height opts in
      let guardExtend := guardExtend opts in
      let fontSize := fontSize opts in
      let smallDigitFontSize := smallDigitFontSize opts in
      let textMargin := textMargin opts in
      let quietZone := quietZone opts in
      let outerDigitGap := outerDigitGap opts in
      let paddingLeft := paddingLeft opts in
      let paddingRight := paddingRight opts in
      let paddingTop := paddingTop opts in
      let paddingBottom := paddingBottom opts in
      let background := background opts in
      let foreground := foreground opts in
      let font := font opts in
      let style := style opts in
      let checksum := checksumSetting opts in
      e <- encode code {| checksum := Some checksum |} ;;
      let encoding := encoding e in
      let fullCode := fullCode e in
      let encodingLength := lit (Z.of_nat (String.length encoding)) in
      let barcodeWidth := encodingLength * moduleWidth in
      let guardHeight :=
        if String.eqb style "notched" then height + guardExtend
        else height in
      let quietZonePx := quietZone * moduleWidth in
      let outerDigitWidth := smallDigitFontSize * lit_0_7 in
      let leftOuterSpace := outerDigitWidth + outerDigitGap in
      let rightOuterSpace := outerDigitWidth + outerDigitGap in
      let contentWidth :=
        leftOuterSpace + quietZonePx + barcodeWidth + quietZonePx
        + rightOuterSpace in
      let contentHeight := guardHeight + fontSize + textMargin in
      let totalWidth := contentWidth + paddingLeft + paddingRight in
      let totalHeight := contentHeight + paddingTop + paddingBottom in
      let attrs :=
        setAttribute "viewBox" (ViewBoxValue totalWidth totalHeight)
        (setAttribute "height" (NumValue totalHeight)
        (setAttribute "width" (NumValue totalWidth)
        (setAttribute "xmlns" (StrValue SVG_NS) (svgAttrs svg)))) in
      let bgRect :=
        RectNode
          (setAttribute "fill" (StrValue background)
          (setAttribute "height" (NumValue totalHeight)
          (setAttribute "width" (NumValue totalWidth) []))) in
      let barcodeStartX := paddingLeft + leftOuterSpace + quietZonePx in
      let offsetY := paddingTop in
      let bars :=
        svgBars encoding style foreground offsetY moduleWidth height
          guardHeight (String.length encoding) 0 barcodeStartX in
      let text :=
        if fontSize >? lit 0 then
          let textY := offsetY + height + textMargin + fontSize in
          let smallDigitY :=
            textY - (fontSize - smallDigitFontSize) / lit 2 in
          let firstDigit :=
            svgText (barcodeStartX - outerDigitGap) smallDigitY "end" font
                    smallDigitFontSize foreground (charAt fullCode 0) in
          let leftStart := barcodeStartX + lit 3 * moduleWidth in
          let rightStart := barcodeStartX + lit 50 * moduleWidth in
          let endGuardX := barcodeStartX + encodingLength * moduleWidth in
          let lastDigit :=
            svgText (endGuardX + outerDigitGap) smallDigitY "start" font
                    smallDigitFontSize foreground (charAt fullCode 11) in
          ([ firstDigit ]
           ++ svgDigits fullCode 1 leftStart moduleWidth textY fontSize
                font foreground
           ++ svgDigits fullCode 6 rightStart moduleWidth textY fontSize
                font foreground
           ++ [ lastDigit ])%list
        else [] in
      Return {|
        svgAttrs := attrs;
        svgChildren := ([ bgRect ] ++ bars ++ text)%list
      |}
  end.

End Rendering.

Arguments Settings : clear implicits.
Arguments CanvasOp : clear implicits.
Arguments Canvas : clear implicits.
Arguments AttrValue : clear implicits.
Arguments Attrs : clear implicits.
Arguments SvgNode : clear implicits.
Arguments Svg : clear implicits.

(** ** Vocabulary of the specification *)

Fixpoint allDigits (s : string) : bool :=
  match s with
  | EmptyString => true
  | String c s' => isDigit c && allDigits s'
  end.

Definition isBit (c : ascii) : bool := Ascii.eqb c "0" || Ascii.eqb c "1".

Fixpoint allBits (s : string) : bool :=
  match s with
  | EmptyString => true
  | String c s' => isBit c && allBits s'
  end.

(** The number a decimal digit stands for. *)
Definition digitValue (c : ascii) : Z := Z.of_nat (nat_of_ascii c) - 48.

Definition digitsOf (s : string) : list Z :=
  map digitValue (list_ascii_of_string s).

Definition Zsum (l : list Z) : Z := fold_right Z.add 0 l.

(** The check digit in the words of the specification: strip the
    non-digits, left-pad with zeros to 11 digits when fewer remain, keep the
    first 11, weight index [i] by 3 when [i] is even and by 1 when it is odd,
    and return [(10 - (sum mod 10)) mod 10]. *)
Module Spec.

Definition weight (i : nat) : Z := if Nat.even i then 3 else 1.

Definition elevenDigits (input : string) : list Z :=
  let digits :=
    map digitValue (filter isDigit (list_ascii_of_string input)) in
  let padded :=
    if (List.length digits <? 11)%nat
    then (List.repeat 0 (11 - List.length digits) ++ digits)%list
    else digits in
  firstn 11 padded.

Definition weightedSum (digits : list Z) : Z :=
  Zsum (map (fun i => weight i * nth i digits 0) (seq 0 11)).

Definition checksum (input : string) : Z :=
  (10 - weightedSum (elevenDigits input) mod 10) mod 10.

(** Swapping ['0'] and ['1']. *)
Definition flip (c : ascii) : ascii :=
  if Ascii.eqb c "0" then "1"%char
  else if Ascii.eqb c "1" then "0"%char else c.

Fixpoint complement (s : string) : string :=
  match s with
  | EmptyString => EmptyString
  | String c s' => String (flip c) (complement s')
  end.

Fixpoint reverse (s : string) : string :=
  match s with
  | EmptyString => EmptyString
  | String c s' => reverse s' ++ String c EmptyString
  end.

(** The guard regions of the 95-module pattern: 0-2, 45-49 and 92-94. *)
Definition inGuardRegion (i : nat) : bool :=
  ((i <=? 2) || ((45 <=? i) && (i <=? 49)) || ((92 <=? i) && (i <=? 94)))%nat.

(** The 1-5-5-1 grouping of twelve characters. *)
Definition grouped (s : string) : option string :=
  match list_ascii_of_string s with
  | [d0; d1; d2; d3; d4; d5; d6; d7; d8; d9; d10; d11] =>
      Some (string_of_list_ascii
              [d0; "-"%char; d1; d2; d3; d4; d5; "-"%char;
               d6; d7; d8; d9; d10; "-"%char; d11])
  | _ => None
  end.

End Spec.

(** The eleven characters [calculateChecksum] sums over. *)
Definition elevenOf (input : string) : string :=
  let code11 := stripNonDigits input in
  substring 0 11
    (if (String.length code11 <? 11)%nat then padStart 11 "0" code11
     else code11).

(** The options object [{ checksum: name }]. *)
Definition policy (name : string) : Options := {| checksum := Some name |}.

(** A canonical code: twelve digits, the last one the check digit of the
    first eleven. *)
Definition canonical (full : string) : Prop :=
  String.length full = 12%nat /\ allDigits full = true
  /\ parseInt (charAt full 11) = calculateChecksum (substring 0 11 full).

(** The two error kinds of the normalizer, told apart by their message. *)
Definition isInvalidLength (r : result string) : Prop :=
  exists message,
    r = Throw message /\ includes message "requires 11 or 12 digits" = true.

Definition checksumMessage (calculated provided : jsnum) : string :=
  "Invalid UPC-A checksum: expected " ++ toString calculated
  ++ ", got " ++ toString provided.

Definition returnsCode12 (r : result string) : Prop :=
  exists full,
    r = Return full /\ String.length full = 12%nat /\ allDigits full = true.

(** The statement that [normalizeInput] fails with the length error exactly
    on sanitized lengths 0 and above 12 and returns twelve digits on every
    sanitized length from 1 to 12, at one input. *)
Definition lengthStatement (raw : string) (options : Options) : Prop :=
  let n := String.length (stripNonDigits raw) in
  (isInvalidLength (normalizeInput raw options) <-> (n = 0 \/ 12 < n)%nat)
  /\ ((1 <= n <= 12)%nat -> returnsCode12 (normalizeInput raw options)).

(** The statement that the R-code of digit [d] is the complement of its
    L-code read in reverse order. *)
Definition reverseComplementStatement (d : Z) : Prop :=
  exists l r,
    arrayGet L_CODES (Int d) = Some l /\ arrayGet R_CODES (Int d) = Some r
    /\ r = Spec.complement (Spec.reverse l).

(** The indices of the modules of a pattern that carry ink. *)
Definition inkModules (encoding : string) : list nat :=
  filter (fun i => isOne (charAt encoding i)) (seq 0 (String.length encoding)).

Section Geometry.

Context {num : Type} {N : Number num}.
Local Open Scope num_scope.

(** The abscissa reached after [k] rounds of [x += moduleWidth]. *)
Fixpoint xAfter (x moduleWidth : num) (k : nat) : num :=
  match k with
  | O => x
  | S k' => xAfter (x + moduleWidth) moduleWidth k'
  end.

(** The height the specification gives the bar of module [i]. *)
Definition specBarHeight (opts : Settings num) (i : nat) : num :=
  if String.eqb (style opts) "notched" then
    if Spec.inGuardRegion i then height opts + guardExtend opts
    else height opts
  else height opts.

Definition specGuardHeight (opts : Settings num) : num :=
  if String.eqb (style opts) "notched" then height opts + guardExtend opts
  else height opts.

(** The total width and height as the specification writes them. *)
Definition specTotalWidth (opts : Settings num) : num :=
  (smallDigitFontSize opts * lit_0_7 + outerDigitGap opts)
  + quietZone opts * moduleWidth opts
  + lit 95 * moduleWidth opts
  + quietZone opts * moduleWidth opts
  + (smallDigitFontSize opts * lit_0_7 + outerDigitGap opts)
  + paddingLeft opts + paddingRight opts.

Definition specTotalHeight (opts : Settings num) : num :=
  specGuardHeight opts + fontSize opts + textMargin opts
  + paddingTop opts + paddingBottom opts.

(** Where the first module starts. *)
Definition barcodeStart (opts : Settings num) : num :=
  paddingLeft opts
  + (smallDigitFontSize opts * lit_0_7 + outerDigitGap opts)
  + quietZone opts * moduleWidth opts.

Definition isFillRect (op : CanvasOp num) : bool :=
  match op with
  | FillRect _ _ _ _ => true
  | _ => false
  end.

Definition isRectNode (node : SvgNode num) : bool :=
  match node with
  | RectNode _ => true
  | TextNode _ _ => false
  end.

End Geometry.

(** IEEE binary64, the numbers of JavaScript. *)
Definition floatOfZ (z : Z) : float :=
  if z <? 0 then PrimFloat.opp (PrimFloat.of_uint63 (Uint63.of_Z (- z)))
  else PrimFloat.of_uint63 (Uint63.of_Z z).

#[export] Instance Number_float : Number float := {|
  lit := floatOfZ;
  lit_0_5 := 0.5%float;
  lit_0_7 := 0x1.6666666666666p-1%float;   (* the double nearest to 0.7 *)
  nadd := PrimFloat.add;
  nsub := PrimFloat.sub;
  nmul := PrimFloat.mul;
  ndiv := PrimFloat.div;
  ngt := fun a b => PrimFloat.ltb b a
|}.

(** A canvas as the browser creates it, and an [svg] element without
    attributes or children. *)
Definition blankCanvas : Canvas float :=
  {| canvasWidth := 300%float; canvasHeight := 150%float; canvasOps := [] |}.

Definition emptySvg : Svg float := {| svgAttrs := []; svgChildren := [] |}.

(** ** Vocabulary of the further facts *)

(** The left side of the check equation of a twelve-digit code: its digits
    weighted 3 at even and 1 at odd indices, the check digit included. *)
Definition checkSum12 (digits : list Z) : Z :=
  Zsum (map (fun i => Spec.weight i * nth i digits 0) (seq 0 12)).

(** What [encoding += TABLE[parseInt(fullCode[i])]] appends for position
    [i]. *)
Definition cellOf (table : list string) (fullCode : string) (i : nat)
  : string :=
  match arrayGet table (parseInt (charAt fullCode i)) with
  | Some t => t
  | None => "undefined"
  end.

Fixpoint concat (parts : list string) : string :=
  match parts with
  | [] => ""
  | p :: rest => p ++ concat rest
  end.

(** The parts [encode] puts together. *)
Definition partsOf (full : string) : list string :=
  ("101" :: map (cellOf L_CODES full) (seq 0 6))
  ++ "01010" :: map (cellOf R_CODES full) (seq 6 6) ++ ["101"].

(** The index of the first of the seven modules of the digit of index [i]:
    after the start guard for the first six digits, after the centre guard
    as well for the last six. *)
Definition cellStart (i : nat) : nat :=
  if (i <? 6)%nat then 3 + 7 * i else 8 + 7 * i.

(** The table that encodes the digit of index [i]. *)
Definition tableOf (i : nat) : list string :=
  if (i <? 6)%nat then L_CODES else R_CODES.

(** The 1-5-5-1 grouping [formatUPC] returns for the string [c]. *)
Definition groupOf (c : string) : string :=
  substring 0 1 c ++ "-" ++ substring 1 6 c ++ "-" ++
  substring 6 11 c ++ "-" ++ sliceFrom 11 c.

Section Texts.

Context {num : Type} {N : Number num}.
Local Open Scope num_scope.



(** Where the digit of index [i] is written: the first one before the start
    guard, the next five centred in the cells after it, the next five
    centred in the cells after the centre guard, the last one after the end
    guard. *)
Definition digitX (opts : Settings num) (i : nat) : num :=
  if (i =? 0)%nat then barcodeStart opts - outerDigitGap opts
  else if (i <? 6)%nat then
    (barcodeStart opts + lit 3 * moduleWidth opts)
    + (lit (Z.of_nat (i - 1)) + lit_0_5) * lit 7 * moduleWidth opts
  else if (i <? 11)%nat then
    (barcodeStart opts + lit 50 * moduleWidth opts)
    + (lit (Z.of_nat (i - 6)) + lit_0_5) * lit 7 * moduleWidth opts
  else barcodeStart opts + lit 95 * moduleWidth opts + outerDigitGap opts.

(** The four attributes [renderSVG] sets, on top of those of the element. *)
Definition sized (attrs : Attrs num) (w h : num) : Attrs num :=
  setAttribute "viewBox" (ViewBoxValue w h)
    (setAttribute "height" (NumValue h)
      (setAttribute "width" (NumValue w)
        (setAttribute "xmlns" (StrValue SVG_NS) attrs))).

End Texts.

(** ** What the caller's options put in force, and what was drawn *)

Section Reading.

Context {num : Type} {N : Number num}.
Local Open Scope num_scope.

(** The settings in force as the specification lists them: the value the
    caller gives where there is one, the documented default otherwise
    ([moduleWidth=2, height=70, guardExtend=10, fontSize=14,
    smallDigitFontSize=10, textMargin=2, quietZone=9, outerDigitGap=2],
    paddings 0, white background, black foreground, style [notched],
    checksum [auto]). *)
Definition inForce (options : Opt.t num) : Settings num := {|
  moduleWidth :=
    match Opt.moduleWidth options with Some v => v | None => lit 2 end;
  height := match Opt.height options with Some v => v | None => lit 70 end;
  guardExtend :=
    match Opt.guardExtend options with Some v => v | None => lit 10 end;
  fontSize :=
    match Opt.fontSize options with Some v => v | None => lit 14 end;
  smallDigitFontSize :=
    match Opt.smallDigitFontSize options with
    | Some v => v
    | None => lit 10
    end;
  textMargin :=
    match Opt.textMargin options with Some v => v | None => lit 2 end;
  quietZone :=
    match Opt.quietZone options with Some v => v | None => lit 9 end;
  outerDigitGap :=
    match Opt.outerDigitGap options with Some v => v | None => lit 2 end;
  paddingLeft :=
    match Opt.paddingLeft options with Some v => v | None => lit 0 end;
  paddingRight :=
    match Opt.paddingRight options with Some v => v | None => lit 0 end;
  paddingTop :=
    match Opt.paddingTop options with Some v => v | None => lit 0 end;
  paddingBottom :=
    match Opt.paddingBottom options with Some v => v | None => lit 0 end;
  background :=
    match Opt.background options with Some v => v | None => "#FFFFFF" end;
  foreground :=
    match Opt.foreground options with Some v => v | None => "#000000" end;
  font :=
    match Opt.font options with
    | Some v => v
    | None =>
        String quote ("OCR-B" ++ String quote (", " ++
        String quote ("Courier New" ++ String quote ", monospace")))
    end;
  style := match Opt.style options with Some v => v | None => "notched" end;
  checksumSetting :=
    match Opt.checksum options with Some v => v | None => "auto" end
|}.

(** The rectangles a canvas was asked to fill: abscissa, ordinate, width
    and height, in the order of the calls. *)
Fixpoint canvasRects (ops : list (CanvasOp num))
  : list (num * num * num * num) :=
  match ops with
  | [] => []
  | FillRect x y w h :: rest => (x, y, w, h) :: canvasRects rest
  | _ :: rest => canvasRects rest
  end.

(** The attributes read off a [rect] element. *)
Record SvgRect : Type := {
  rectX : option (AttrValue num);
  rectY : option (AttrValue num);
  rectWidth : option (AttrValue num);
  rectHeight : option (AttrValue num);
  rectFill : option (AttrValue num)
}.

Definition readRect (attrs : Attrs num) : SvgRect := {|
  rectX := getAttribute "x" attrs;
  rectY := getAttribute "y" attrs;
  rectWidth := getAttribute "width" attrs;
  rectHeight := getAttribute "height" attrs;
  rectFill := getAttribute "fill" attrs
|}.

(** The [rect] children of an element, in document order. *)
Fixpoint svgRects (nodes : list (SvgNode num)) : list SvgRect :=
  match nodes with
  | [] => []
  | RectNode attrs :: rest => readRect attrs :: svgRects rest
  | TextNode _ _ :: rest => svgRects rest
  end.

End Reading.

Arguments SvgRect : clear implicits.

(** Options that leave no geometric default in force, in style [flat] and
    in style [notched]. *)
Definition flatOptions : Opt.t float := {|
  Opt.moduleWidth := Some 3%float;
  Opt.height := Some 50%float;
  Opt.guardExtend := Some 8%float;
  Opt.fontSize := Some 12%float;
  Opt.smallDigitFontSize := Some 20%float;
  Opt.textMargin := Some 3%float;
  Opt.quietZone := Some 10%float;
  Opt.outerDigitGap := Some 1%float;
  Opt.paddingLeft := Some 5%float;
  Opt.paddingRight := Some 6%float;
  Opt.paddingTop := Some 4%float;
  Opt.paddingBottom := Some 7%float;
  Opt.background := Some "#EEEEEE";
  Opt.foreground := Some "#112233";
  Opt.font := None;
  Opt.style := Some "flat";
  Opt.checksum := Some "validate"
|}.

Definition notchedOptions : Opt.t float := {|
  Opt.moduleWidth := Some 3%float;
  Opt.height := Some 50%float;
  Opt.guardExtend := Some 8%float;
  Opt.fontSize := Some 12%float;
  Opt.smallDigitFontSize := Some 20%float;
  Opt.textMargin := Some 3%float;
  Opt.quietZone := Some 10%float;
  Opt.outerDigitGap := Some 1%float;
  Opt.paddingLeft := Some 5%float;
  Opt.paddingRight := Some 6%float;
  Opt.paddingTop := Some 4%float;
  Opt.paddingBottom := Some 7%float;
  Opt.background := Some "#EEEEEE";
  Opt.foreground := Some "#112233";
  Opt.font := None;
  Opt.style := Some "notched";
  Opt.checksum := Some "validate"
|}.

(** * Facts *)

Example calculateChecksum_ex : calculateChecksum "01234567890" = Int 5.
Proof. reflexivity. Qed.

Example normalizeInput_ex :
  normalizeInput "12345" noOptions = Return "000000123457".
Proof. reflexivity. Qed.

Example validate_ex :
  validate "012345678905" = true /\ validate "012345678900" = false
  /\ validate "" = false.
Proof. repeat split. Qed.

Example formatUPC_ex : formatUPC "012345678905" = Return "0-12345-67890-5".
Proof. reflexivity. Qed.

(** ** Strings *)

Lemma length_append (a b : string) :
  String.length (a ++ b) = (String.length a + String.length b)%nat.
Proof. induction a as [|c a IH]; simpl; [reflexivity | now rewrite IH]. Qed.

Lemma append_assoc (a b c : string) : (a ++ b) ++ c = a ++ (b ++ c).
Proof. induction a as [|x a IH]; simpl; [reflexivity | now rewrite IH]. Qed.

Lemma append_empty_r (a : string) : a ++ "" = a.
Proof. induction a as [|x a IH]; simpl; [reflexivity | now rewrite IH]. Qed.

Lemma length_repeat (c : ascii) (n : nat) : String.length (repeat c n) = n.
Proof. induction n as [|n IH]; simpl; [reflexivity | now rewrite IH]. Qed.

Lemma length_padStart (n : nat) (c : ascii) (s : string) :
  String.length (padStart n c s) = Nat.max n (String.length s).
Proof. unfold padStart. rewrite length_append, length_repeat. lia. Qed.

Lemma length_prefix (m : nat) (s : string) :
  String.length (String.substring 0 m s) = Nat.min m (String.length s).
Proof.
  revert s. induction m as [|m IH]; intros [|c s]; simpl; try reflexivity.
  now rewrite IH.
Qed.

Lemma prefix_append (a b : string) :
  String.substring 0 (String.length a) (a ++ b) = a.
Proof.
  induction a as [|c a IH]; simpl.
  - now destruct b.
  - now rewrite IH.
Qed.

Lemma substring_append_skip (a b : string) (n m : nat) :
  String.substring (String.length a + n) m (a ++ b) = String.substring n m b.
Proof. induction a as [|c a IH]; simpl; [reflexivity | exact IH]. Qed.

Lemma charAt_append_skip (a b : string) (i : nat) :
  charAt (a ++ b) (String.length a + i) = charAt b i.
Proof. unfold charAt. induction a as [|c a IH]; simpl; [reflexivity | exact IH]. Qed.

Lemma allDigits_append (a b : string) :
  allDigits (a ++ b) = allDigits a && allDigits b.
Proof.
  induction a as [|c a IH]; simpl; [reflexivity|].
  now rewrite IH, andb_assoc.
Qed.

Lemma allDigits_repeat_zero (n : nat) : allDigits (repeat "0" n) = true.
Proof. induction n as [|n IH]; simpl; [reflexivity | exact IH]. Qed.

Lemma allDigits_prefix (m : nat) (s : string) :
  allDigits s = true -> allDigits (String.substring 0 m s) = true.
Proof.
  revert s. induction m as [|m IH]; intros [|c s]; simpl; try reflexivity.
  intros Hs. apply andb_true_iff in Hs as [Hc Hs].
  now rewrite Hc, IH.
Qed.

Lemma allDigits_stripNonDigits (s : string) :
  allDigits (stripNonDigits s) = true.
Proof.
  induction s as [|c s IH]; simpl; [reflexivity|].
  destruct (isDigit c) eqn:Hc; simpl; [now rewrite Hc | exact IH].
Qed.

Lemma stripNonDigits_allDigits (s : string) :
  allDigits s = true -> stripNonDigits s = s.
Proof.
  induction s as [|c s IH]; simpl; [reflexivity|].
  intros Hs. apply andb_true_iff in Hs as [Hc Hs].
  now rewrite Hc, IH.
Qed.

Lemma allDigits_padStart (n : nat) (s : string) :
  allDigits s = true -> allDigits (padStart n "0" s) = true.
Proof.
  intros Hs. unfold padStart.
  now rewrite allDigits_append, allDigits_repeat_zero, Hs.
Qed.

(** ** The check digit *)

Lemma isDigit_value (c : ascii) :
  isDigit c = true -> 0 <= digitValue c <= 9.
Proof.
  unfold isDigit, digitValue. intros H.
  apply andb_true_iff in H as [Hlo Hhi].
  apply Nat.leb_le in Hlo, Hhi. lia.
Qed.

Lemma parseInt_digit (c : ascii) :
  isDigit c = true -> parseInt (Some c) = Int (digitValue c).
Proof. unfold parseInt, digitValue. now intros ->. Qed.

Lemma digitsOf_length (s : string) :
  List.length (digitsOf s) = String.length s.
Proof.
  unfold digitsOf. rewrite length_map.
  induction s as [|c s IH]; simpl; [reflexivity | now rewrite IH].
Qed.

Lemma digitsOf_append (a b : string) :
  digitsOf (a ++ b) = (digitsOf a ++ digitsOf b)%list.
Proof.
  unfold digitsOf. induction a as [|c a IH]; simpl; [reflexivity|].
  now rewrite IH.
Qed.

Lemma digitsOf_repeat_zero (n : nat) :
  digitsOf (repeat "0" n) = List.repeat 0 n.
Proof.
  unfold digitsOf. induction n as [|n IH]; simpl; [reflexivity|].
  now rewrite IH.
Qed.

Lemma digitsOf_prefix (m : nat) (s : string) :
  digitsOf (String.substring 0 m s) = firstn m (digitsOf s).
Proof.
  unfold digitsOf. revert s.
  induction m as [|m IH]; intros [|c s]; simpl; try reflexivity.
  now rewrite IH.
Qed.

Lemma digitsOf_stripNonDigits (s : string) :
  digitsOf (stripNonDigits s)
  = map digitValue (filter isDigit (list_ascii_of_string s)).
Proof.
  unfold digitsOf. induction s as [|c s IH]; simpl; [reflexivity|].
  destruct (isDigit c); simpl; now rewrite IH.
Qed.

Lemma digitsOf_nonneg (s : string) :
  allDigits s = true -> Forall (fun d => 0 <= d <= 9) (digitsOf s).
Proof.
  unfold digitsOf. induction s as [|c s IH]; simpl; intros Hs.
  - constructor.
  - apply andb_true_iff in Hs as [Hc Hs].
    constructor; [now apply isDigit_value | now apply IH].
Qed.

(** Reading position [i] of a string of digits is reading the [i]-th
    value. *)
Lemma parseInt_charAt (s : string) (i : nat) :
  allDigits s = true -> (i < String.length s)%nat ->
  parseInt (charAt s i) = Int (nth i (digitsOf s) 0).
Proof.
  unfold charAt, digitsOf. revert i.
  induction s as [|c s IH]; simpl; intros i Hs Hi; [lia|].
  apply andb_true_iff in Hs as [Hc Hs].
  destruct i as [|i].
  - now apply parseInt_digit.
  - apply IH; [assumption | lia].
Qed.

Lemma weight_parity (i : nat) :
  (if (i mod 2 =? 0)%nat then Int 3 else Int 1) = Int (Spec.weight i).
Proof.
  unfold Spec.weight.
  rewrite <- Nat.negb_odd, <- Nat.bit0_odd, Nat.bit0_eqb.
  pose proof (Nat.mod_upper_bound i 2 ltac:(lia)) as Hlt.
  destruct (i mod 2)%nat as [|[|k]]; simpl; try reflexivity. lia.
Qed.

(** The loop adds to [sum] the weighted values of positions [i] to
    [i + n - 1]. *)
Lemma checksumLoop_sum (code11 : string) (n i : nat) (sum : Z) :
  allDigits code11 = true -> (i + n <= String.length code11)%nat ->
  checksumLoop code11 n i (Int sum)
  = Int (sum + Zsum (map (fun j => Spec.weight j * nth j (digitsOf code11) 0)
                         (seq i n))).
Proof.
  intros Hd. revert i sum.
  induction n as [|n IH]; intros i sum Hlen;
    cbn [checksumLoop seq map Zsum fold_right].
  - now rewrite Z.add_0_r.
  - rewrite parseInt_charAt by (assumption || lia).
    rewrite weight_parity. cbn [mul add].
    rewrite IH by lia. unfold Zsum. f_equal. lia.
Qed.

Lemma Zsum_nonneg (l : list Z) : Forall (fun d => 0 <= d) l -> 0 <= Zsum l.
Proof.
  induction 1 as [|d l Hd _ IH]; simpl; lia.
Qed.

Lemma weightedSum_nonneg (digits : list Z) :
  Forall (fun d => 0 <= d <= 9) digits -> 0 <= Spec.weightedSum digits.
Proof.
  intros Hd. unfold Spec.weightedSum. apply Zsum_nonneg.
  apply Forall_forall. intros x Hx.
  apply in_map_iff in Hx as [i [<- _]].
  assert (0 <= nth i digits 0) as Hn.
  { destruct (Nat.lt_ge_cases i (List.length digits)) as [Hi | Hi].
    - pose proof (proj1 (Forall_forall _ _) Hd _ (nth_In _ 0 Hi)) as Hp.
      cbv beta in Hp. lia.
    - rewrite nth_overflow by assumption. lia. }
  unfold Spec.weight. destruct (Nat.even i); lia.
Qed.

Lemma elevenOf_digits (input : string) : allDigits (elevenOf input) = true.
Proof.
  unfold elevenOf, substring. apply allDigits_prefix.
  destruct (_ <? _)%nat.
  - apply allDigits_padStart, allDigits_stripNonDigits.
  - apply allDigits_stripNonDigits.
Qed.

Lemma elevenOf_length (input : string) : String.length (elevenOf input) = 11%nat.
Proof.
  unfold elevenOf, substring. rewrite length_prefix.
  destruct (_ <? _)%nat eqn:Hlt.
  - rewrite length_padStart. lia.
  - apply Nat.ltb_ge in Hlt. lia.
Qed.

Lemma elevenOf_spec (input : string) :
  digitsOf (elevenOf input) = Spec.elevenDigits input.
Proof.
  unfold elevenOf, Spec.elevenDigits, substring.
  rewrite digitsOf_prefix. f_equal.
  rewrite <- digitsOf_stripNonDigits, digitsOf_length.
  destruct (_ <? _)%nat; [|reflexivity].
  unfold padStart.
  now rewrite digitsOf_append, digitsOf_repeat_zero.
Qed.

(** [calculateChecksum] computes the check digit of the specification. *)
Lemma calculateChecksum_spec (input : string) :
  calculateChecksum input = Int (Spec.checksum input).
Proof.
  unfold calculateChecksum. fold (elevenOf input).
  rewrite checksumLoop_sum
    by (apply elevenOf_digits || (rewrite elevenOf_length; lia)).
  rewrite elevenOf_spec. fold (Spec.weightedSum (Spec.elevenDigits input)).
  assert (0 <= Spec.weightedSum (Spec.elevenDigits input)) as Hnn.
  { rewrite <- elevenOf_spec.
    apply weightedSum_nonneg, digitsOf_nonneg, elevenOf_digits. }
  unfold Spec.checksum.
  set (w := Spec.weightedSum (Spec.elevenDigits input)) in *.
  cbn [rem sub Z.eqb]. rewrite Z.add_0_l.
  rewrite (Z.rem_mod_nonneg w 10) by lia.
  pose proof (Z.mod_pos_bound w 10 ltac:(lia)).
  rewrite Z.rem_mod_nonneg by lia. reflexivity.
Qed.

Lemma checksum_range (input : string) : 0 <= Spec.checksum input <= 9.
Proof.
  unfold Spec.checksum.
  pose proof (Z.mod_pos_bound
                (10 - Spec.weightedSum (Spec.elevenDigits input) mod 10) 10
                ltac:(lia)).
  lia.
Qed.

(** C3: [calculateChecksum] strips the non-digits, left-pads with zeros to
    eleven digits, keeps the first eleven, and returns
    [(10 - (sum mod 10)) mod 10] for the sum weighted 3 at even and 1 at odd
    indices; the result is a digit, and the check digit of ["01234567890"]
    is 5. *)
Theorem calculateChecksum_correct :
  (forall input : string,
      calculateChecksum input = Int (Spec.checksum input)
      /\ 0 <= Spec.checksum input <= 9)
  /\ calculateChecksum "01234567890" = Int 5.
Proof.
  split; [|reflexivity].
  intros input. split; [apply calculateChecksum_spec | apply checksum_range].
Qed.

(** ** Normalization *)

Lemma calculateChecksum_digit (input : string) :
  exists d, 0 <= d <= 9 /\ calculateChecksum input = Int d.
Proof.
  exists (Spec.checksum input).
  split; [apply checksum_range | apply calculateChecksum_spec].
Qed.

Lemma ten_cases (d : Z) :
  0 <= d <= 9 ->
  d = 0 \/ d = 1 \/ d = 2 \/ d = 3 \/ d = 4 \/ d = 5 \/ d = 6 \/ d = 7
  \/ d = 8 \/ d = 9.
Proof. lia. Qed.

Ltac each_digit d H :=
  let C := fresh "C" in
  pose proof (ten_cases d H) as C;
  repeat (destruct C as [C | C]; [subst d | ]); [.. | subst d].

(** The decimal form of a digit is one digit character. *)
Lemma toString_digit (d : Z) :
  0 <= d <= 9 ->
  exists c, toString (Int d) = String c "" /\ isDigit c = true
            /\ parseInt (Some c) = Int d.
Proof.
  intros H. each_digit d H; eexists; repeat split.
Qed.

(** Appending its check digit to eleven digits gives a canonical code. *)
Lemma completed_canonical (p : string) :
  allDigits p = true -> String.length p = 11%nat ->
  canonical (p ++ toString (calculateChecksum p))
  /\ substring 0 11 (p ++ toString (calculateChecksum p)) = p.
Proof.
  intros Hd Hl.
  destruct (calculateChecksum_digit p) as [d [Hr Hc]].
  destruct (toString_digit d Hr) as [c [Hs [Hdc Hp]]].
  assert (substring 0 11 (p ++ toString (calculateChecksum p)) = p) as Hsub.
  { unfold substring. rewrite <- Hl at 1. rewrite Nat.sub_0_r.
    apply prefix_append. }
  split; [|exact Hsub].
  unfold canonical. rewrite Hsub.
  rewrite Hc, Hs at 1 2 3.
  repeat split.
  - rewrite length_append, Hl. reflexivity.
  - rewrite allDigits_append, Hd. simpl. now rewrite Hdc.
  - replace 11%nat with (String.length p + 0)%nat by lia.
    rewrite charAt_append_skip. unfold charAt. cbn [String.get].
    now rewrite Hp, Hc.
Qed.

Lemma strict_eq_true (a b : jsnum) : strict_eq a b = true -> a = b.
Proof.
  destruct a, b; simpl; try discriminate.
  intros H. apply Z.eqb_eq in H. now subst.
Qed.

Lemma length_substring_11_of_12 (code : string) :
  String.length code = 12%nat -> String.length (substring 0 11 code) = 11%nat.
Proof. intros H. unfold substring. rewrite length_prefix, H. reflexivity. Qed.

(** Whatever [normalizeInput] returns is canonical. *)
Lemma normalizeInput_canonical (raw : string) (options : Options)
      (full : string) :
  normalizeInput raw options = Return full -> canonical full.
Proof.
  unfold normalizeInput.
  pose proof (allDigits_stripNonDigits raw) as Hd.
  set (code := stripNonDigits raw) in *.
  destruct (String.length code =? 11)%nat eqn:H11.
  { apply Nat.eqb_eq in H11. intros [= <-].
    now apply completed_canonical. }
  destruct (String.length code =? 12)%nat eqn:H12.
  { apply Nat.eqb_eq in H12.
    assert (canonical (substring 0 11 code
                       ++ toString (calculateChecksum (substring 0 11 code))))
      as Hcan.
    { apply completed_canonical.
      - now apply allDigits_prefix.
      - now apply length_substring_11_of_12. }
    destruct (String.eqb _ "validate").
    - destruct (strict_eq _ _) eqn:Heq; simpl; [|discriminate].
      intros [= <-]. apply strict_eq_true in Heq. now repeat split.
    - destruct (String.eqb _ "recalculate"); now intros [= <-]. }
  destruct (String.length code <? 11)%nat eqn:Hlt; [|discriminate].
  apply Nat.ltb_lt in Hlt. intros [= <-].
  apply completed_canonical.
  - now apply allDigits_padStart.
  - rewrite length_padStart. lia.
Qed.

Lemma provided_digit (code : string) :
  allDigits code = true -> String.length code = 12%nat ->
  exists p, 0 <= p <= 9 /\ parseInt (charAt code 11) = Int p.
Proof.
  intros Hd Hl. exists (nth 11 (digitsOf code) 0). split.
  - pose proof (digitsOf_nonneg code Hd) as Hall.
    apply (proj1 (Forall_forall _ _) Hall), nth_In.
    rewrite digitsOf_length. lia.
  - apply parseInt_charAt; [assumption | lia].
Qed.

(** The checksum message shows both digits and is not the length
    message. *)
Lemma checksumMessage_shows (e p : Z) :
  0 <= e <= 9 -> 0 <= p <= 9 ->
  includes (checksumMessage (Int e) (Int p)) (toString (Int e)) = true
  /\ includes (checksumMessage (Int e) (Int p)) (toString (Int p)) = true
  /\ includes (checksumMessage (Int e) (Int p)) "requires 11 or 12 digits"
     = false.
Proof.
  intros He Hp. each_digit e He; each_digit p Hp; vm_compute; repeat split.
Qed.

Lemma returnsCode12_of_canonical (raw : string) (options : Options)
      (full : string) :
  normalizeInput raw options = Return full ->
  returnsCode12 (normalizeInput raw options).
Proof.
  intros Heq. destruct (normalizeInput_canonical _ _ _ Heq) as [Hl [Hd _]].
  exists full. now rewrite Heq.
Qed.

Lemma not_invalidLength_return (full : string) :
  ~ isInvalidLength (Return full).
Proof. intros [m [Heq _]]. discriminate. Qed.

(** How [normalizeInput] ends on twelve digits under the policy
    [validate]. *)
Lemma validate_twelve (raw : string) (options : Options) :
  String.length (stripNonDigits raw) = 12%nat ->
  checksumModeOf options = "validate" ->
  normalizeInput raw options
  = if strict_eq (parseInt (charAt (stripNonDigits raw) 11))
                 (calculateChecksum (substring 0 11 (stripNonDigits raw)))
    then Return (stripNonDigits raw)
    else Throw (checksumMessage
                  (calculateChecksum (substring 0 11 (stripNonDigits raw)))
                  (parseInt (charAt (stripNonDigits raw) 11))).
Proof.
  intros Hl Hm. unfold normalizeInput. rewrite Hl, Hm. cbn [Nat.eqb].
  rewrite String.eqb_refl. now destruct (strict_eq _ _).
Qed.

Lemma other_twelve (raw : string) (options : Options) :
  String.length (stripNonDigits raw) = 12%nat ->
  String.eqb (checksumModeOf options) "validate" = false ->
  normalizeInput raw options
  = Return (substring 0 11 (stripNonDigits raw)
            ++ toString (calculateChecksum
                           (substring 0 11 (stripNonDigits raw)))).
Proof.
  intros Hl Hm. unfold normalizeInput. rewrite Hl, Hm. cbn [Nat.eqb].
  now destruct (String.eqb _ "recalculate").
Qed.

(** C1, amended: when at least one digit remains after stripping,
    [normalizeInput] fails with the length error exactly when more than
    twelve digits remain; up to eleven digits it returns twelve digits; on
    twelve digits it returns twelve digits unless the policy is [validate]
    and the check digit is wrong, in which case it fails with the checksum
    error. *)
Theorem normalizeInput_length (raw : string) (options : Options) :
  let code := stripNonDigits raw in
  let n := String.length code in
  let r := normalizeInput raw options in
  let provided := parseInt (charAt code 11) in
  let calculated := calculateChecksum (substring 0 11 code) in
  let rejected :=
    String.eqb (checksumModeOf options) "validate"
    && negb (strict_eq provided calculated) in
  (1 <= n)%nat ->
  (isInvalidLength r <-> (12 < n)%nat)
  /\ ((n <= 11)%nat -> returnsCode12 r)
  /\ (n = 12%nat -> rejected = false -> returnsCode12 r)
  /\ (n = 12%nat -> rejected = true ->
      r = Throw (checksumMessage calculated provided)).
Proof.
  intros code n r provided calculated rejected Hpos.
  pose proof (allDigits_stripNonDigits raw) as Hd. fold code in Hd.
  destruct (Nat.lt_trichotomy n 12) as [Hlt | [Heq | Hgt]].
  - (* at most eleven digits: a code is returned *)
    assert (exists full, r = Return full) as [full Hr].
    { subst r. unfold normalizeInput. fold code. fold n.
      destruct (n =? 11)%nat eqn:H11; [eauto|].
      apply Nat.eqb_neq in H11.
      destruct (n =? 12)%nat eqn:H12; [apply Nat.eqb_eq in H12; lia|].
      destruct (n <? 11)%nat eqn:Hlt11; [eauto|].
      apply Nat.ltb_ge in Hlt11. lia. }
    pose proof (returnsCode12_of_canonical raw options full Hr) as Hret.
    fold r in Hret.
    repeat split; try (intros; lia); try (intros; exact Hret).
    rewrite Hr. intros Hinv. now apply not_invalidLength_return in Hinv.
  - (* twelve digits: the policy decides *)
    destruct (provided_digit code Hd Heq) as [p [Hp Hpe]].
    destruct (calculateChecksum_digit (substring 0 11 code)) as [e [He Hee]].
    destruct (String.eqb (checksumModeOf options) "validate") eqn:Hmode.
    + apply String.eqb_eq in Hmode.
      pose proof (validate_twelve raw options Heq Hmode) as Hr.
      fold code in Hr. fold provided in Hr. fold calculated in Hr. fold r in Hr.
      subst rejected. cbn [andb].
      destruct (strict_eq provided calculated) eqn:Hsame; cbn [negb].
      * assert (returnsCode12 r) as Hret
            by (exists code; rewrite Hr; repeat split; assumption).
        repeat split; try (intros; lia); try discriminate;
          try (intros; exact Hret).
        rewrite Hr. intros Hinv. now apply not_invalidLength_return in Hinv.
      * repeat split; try (intros; lia); try discriminate;
          try (intros; exact Hr).
        rewrite Hr. intros [m [[= <-] Hinc]].
        subst provided calculated. rewrite Hpe, Hee in Hinc.
        destruct (checksumMessage_shows e p He Hp) as [_ [_ Hno]].
        congruence.
    + pose proof (other_twelve raw options Heq Hmode) as Hr.
      fold code in Hr. fold r in Hr.
      pose proof (returnsCode12_of_canonical raw options _ Hr) as Hret.
      fold r in Hret. subst rejected. cbn [andb].
      repeat split; try (intros; lia); try discriminate;
        try (intros; exact Hret).
      rewrite Hr. intros Hinv. now apply not_invalidLength_return in Hinv.
  - (* more than twelve digits: the length error *)
    assert (r = Throw "UPC-A requires 11 or 12 digits") as Hr.
    { subst r. unfold normalizeInput. fold code. fold n.
      destruct (n =? 11)%nat eqn:H11; [apply Nat.eqb_eq in H11; lia|].
      destruct (n =? 12)%nat eqn:H12; [apply Nat.eqb_eq in H12; lia|].
      destruct (n <? 11)%nat eqn:Hlt11; [apply Nat.ltb_lt in Hlt11; lia|].
      reflexivity. }
    repeat split; try (intros; lia).
    intros _. rewrite Hr. eexists. split; reflexivity.
Qed.

(** On ["012345678900"] with the policy [validate], twelve digits remain and
    no code is returned; on the empty string no digit remains and a code is
    returned.  The statement of C1 fails at both. *)
Lemma normalizeInput_length_counterexample :
  ~ lengthStatement "012345678900" (policy "validate")
  /\ ~ lengthStatement "" noOptions.
Proof.
  split.
  - intros [_ H]. destruct H as [full [Heq _]].
    + simpl. lia.
    + vm_compute in Heq. discriminate.
  - intros [H _]. destruct (proj2 H) as [m [Heq _]].
    + left. reflexivity.
    + vm_compute in Heq. discriminate.
Qed.

Example normalizeInput_validate_wrong :
  normalizeInput "012345678900" (policy "validate")
  = Throw "Invalid UPC-A checksum: expected 5, got 0".
Proof. reflexivity. Qed.

(** With no digit at all, [normalizeInput] pads to eleven zeros and returns
    a code, although [validate] rejects the same input. *)
Example normalizeInput_empty :
  normalizeInput "" noOptions = Return "000000000000"
  /\ validate "" = false.
Proof. split; reflexivity. Qed.

Lemma normalizeInput_length_witness :
  (1 <= String.length (stripNonDigits "0 12345-67890"))%nat
  /\ returnsCode12 (normalizeInput "0 12345-67890" noOptions)
  /\ ~ isInvalidLength (normalizeInput "0 12345-67890" noOptions).
Proof.
  assert (1 <= String.length (stripNonDigits "0 12345-67890"))%nat as Hpos
      by (simpl; lia).
  pose proof (normalizeInput_length "0 12345-67890" noOptions Hpos)
    as [Hiff [Hshort _]].
  split; [exact Hpos|]. split.
  - apply Hshort. simpl. lia.
  - intros Hinv. apply Hiff in Hinv. simpl in Hinv. lia.
Defined.

(** C4: on twelve digits the policy [validate] throws the checksum error,
    whose message shows the computed and the provided digit, exactly when
    the provided twelfth digit differs from the check digit of the first
    eleven, and returns the twelve digits unchanged when they agree. *)
Theorem normalizeInput_validate (raw : string) :
  let code := stripNonDigits raw in
  let r := normalizeInput raw (policy "validate") in
  String.length code = 12%nat ->
  exists expected provided : Z,
    0 <= expected <= 9 /\ 0 <= provided <= 9
    /\ calculateChecksum (substring 0 11 code) = Int expected
    /\ parseInt (charAt code 11) = Int provided
    /\ (provided <> expected ->
        r = Throw (checksumMessage (Int expected) (Int provided))
        /\ includes (checksumMessage (Int expected) (Int provided))
                    (toString (Int expected)) = true
        /\ includes (checksumMessage (Int expected) (Int provided))
                    (toString (Int provided)) = true)
    /\ (provided = expected -> r = Return code)
    /\ ((exists message, r = Throw message) <-> provided <> expected).
Proof.
  intros code r Hl.
  pose proof (allDigits_stripNonDigits raw) as Hd. fold code in Hd.
  destruct (provided_digit code Hd Hl) as [p [Hp Hpe]].
  destruct (calculateChecksum_digit (substring 0 11 code)) as [e [He Hee]].
  exists e, p.
  pose proof (validate_twelve raw (policy "validate") Hl eq_refl) as Hr.
  fold code in Hr. fold r in Hr. rewrite Hpe, Hee in Hr. cbn [strict_eq] in Hr.
  destruct (checksumMessage_shows e p He Hp) as [Hse [Hsp _]].
  repeat split; try assumption; try lia.
  - destruct (Z.eqb_spec p e); [contradiction | exact Hr].
  - intros ->. now rewrite Z.eqb_refl in Hr.
  - intros [m Hm] ->. rewrite Z.eqb_refl in Hr. congruence.
  - intros Hne. destruct (Z.eqb_spec p e); [contradiction | eauto].
Qed.

Lemma normalizeInput_validate_witness :
  String.length (stripNonDigits "0-12345-67890-0") = 12%nat
  /\ normalizeInput "0-12345-67890-0" (policy "validate")
     = Throw "Invalid UPC-A checksum: expected 5, got 0".
Proof.
  split; [reflexivity|].
  destruct (normalizeInput_validate "0-12345-67890-0" eq_refl)
    as [e [p [_ [_ [He [Hp [Hne _]]]]]]].
  vm_compute in He, Hp.
  injection He as <-. injection Hp as <-.
  destruct Hne as [Hr _]; [lia | exact Hr].
Defined.

(** C5: the policies [auto] and [recalculate] give the same outcome on
    every input, a returned code or an error; on twelve digits both return
    the first eleven followed by the computed check digit. *)
Theorem auto_recalculate_same (raw : string) :
  normalizeInput raw (policy "auto") = normalizeInput raw (policy "recalculate")
  /\ normalizeInput raw noOptions = normalizeInput raw (policy "auto")
  /\ (String.length (stripNonDigits raw) = 12%nat ->
      normalizeInput raw (policy "auto")
      = Return (substring 0 11 (stripNonDigits raw)
                ++ toString (calculateChecksum
                               (substring 0 11 (stripNonDigits raw))))).
Proof.
  split; [|split].
  - unfold normalizeInput.
    destruct (_ =? 11)%nat; [reflexivity|].
    destruct (_ =? 12)%nat; reflexivity.
  - reflexivity.
  - intros Hl. now apply other_twelve.
Qed.

Lemma auto_recalculate_same_witness :
  String.length (stripNonDigits "012345678900") = 12%nat
  /\ normalizeInput "012345678900" (policy "auto") = Return "012345678905"
  /\ normalizeInput "012345678900" (policy "recalculate")
     = Return "012345678905".
Proof.
  destruct (auto_recalculate_same "012345678900") as [Hsame [_ Htwelve]].
  split; [reflexivity|].
  rewrite <- Hsame. split; exact (Htwelve eq_refl).
Defined.

(** C6: a code normalized under [auto] passes [validate] unchanged: its
    twelfth digit is the check digit of its first eleven. *)
Theorem normalize_then_validate (raw full : string) :
  normalizeInput raw (policy "auto") = Return full ->
  normalizeInput full (policy "validate") = Return full
  /\ parseInt (charAt full 11) = calculateChecksum (substring 0 11 full).
Proof.
  intros Hn. destruct (normalizeInput_canonical _ _ _ Hn) as [Hl [Hd Hc]].
  split; [|exact Hc].
  pose proof (stripNonDigits_allDigits full Hd) as Hs.
  assert (String.length (stripNonDigits full) = 12%nat) as Hl'
      by now rewrite Hs.
  rewrite (validate_twelve full (policy "validate") Hl' eq_refl).
  rewrite Hs, Hc.
  destruct (calculateChecksum_digit (substring 0 11 full)) as [d [_ ->]].
  cbn [strict_eq]. now rewrite Z.eqb_refl.
Qed.

Lemma normalize_then_validate_witness :
  normalizeInput "12345" (policy "auto") = Return "000000123457"
  /\ normalizeInput "000000123457" (policy "validate") = Return "000000123457".
Proof.
  split; [reflexivity|].
  exact (proj1 (normalize_then_validate "12345" "000000123457" eq_refl)).
Defined.

(** ** The bar pattern *)

Lemma allBits_append (a b : string) :
  allBits (a ++ b) = allBits a && allBits b.
Proof.
  induction a as [|c a IH]; simpl; [reflexivity|].
  now rewrite IH, andb_assoc.
Qed.

(** Every digit has a seven-module entry in both tables. *)
Lemma table_entry (table : list string) (d : Z) :
  table = L_CODES \/ table = R_CODES -> 0 <= d <= 9 ->
  exists code,
    arrayGet table (Int d) = Some code
    /\ String.length code = 7%nat /\ allBits code = true.
Proof.
  intros [-> | ->] Hd; each_digit d Hd; eexists; repeat split.
Qed.

(** The loop appends seven modules per digit. *)
Lemma encodeLoop_body (table : list string) (fullCode : string) (n i : nat)
      (encoding : string) :
  table = L_CODES \/ table = R_CODES ->
  allDigits fullCode = true -> (i + n <= String.length fullCode)%nat ->
  exists body,
    encodeLoop table fullCode n i encoding = encoding ++ body
    /\ String.length body = (7 * n)%nat /\ allBits body = true.
Proof.
  intros Ht Hd. revert i encoding.
  induction n as [|n IH]; intros i encoding Hlen; cbn [encodeLoop].
  - exists "". now rewrite append_empty_r.
  - rewrite parseInt_charAt by (assumption || lia).
    assert (0 <= nth i (digitsOf fullCode) 0 <= 9) as Hr.
    { pose proof (digitsOf_nonneg fullCode Hd) as Hall.
      apply (proj1 (Forall_forall _ _) Hall), nth_In.
      rewrite digitsOf_length. lia. }
    destruct (table_entry table _ Ht Hr) as [code [Hget [Hl Hb]]].
    rewrite Hget. unfold appendValue.
    destruct (IH (S i) (encoding ++ code) ltac:(lia)) as [body [He [Hbl Hbb]]].
    exists (code ++ body). rewrite He, append_assoc. repeat split.
    + rewrite length_append, Hl, Hbl. lia.
    + now rewrite allBits_append, Hb, Hbb.
Qed.

(** The pattern [encode] builds: the guards around two halves of 42
    modules. *)
Lemma encode_halves (code : string) (options : Options) (full : string) :
  normalizeInput code options = Return full ->
  exists left right,
    encode code options
    = Return {| encoding := ((("101" ++ left) ++ "01010") ++ right) ++ "101";
                fullCode := full |}
    /\ String.length left = 42%nat /\ allBits left = true
    /\ String.length right = 42%nat /\ allBits right = true.
Proof.
  intros Hn. destruct (normalizeInput_canonical _ _ _ Hn) as [Hl [Hd _]].
  unfold encode. rewrite Hn. cbn [bind].
  destruct (encodeLoop_body L_CODES full 6 0 "101" (or_introl eq_refl) Hd
              ltac:(lia)) as [left [-> [Hll Hlb]]].
  destruct (encodeLoop_body R_CODES full 6 6 (("101" ++ left) ++ "01010")
              (or_intror eq_refl) Hd ltac:(lia)) as [right [-> [Hrl Hrb]]].
  exists left, right. repeat split; assumption.
Qed.

(** C2: when normalization succeeds, [encode] returns a pattern of exactly
    95 characters, all ['0'] or ['1'], that reads ["101"] at indices 0-2,
    ["01010"] at indices 45-49 and ["101"] at indices 92-94. *)
Theorem encode_pattern (code : string) (options : Options) (full : string) :
  normalizeInput code options = Return full ->
  exists pattern,
    encode code options = Return {| encoding := pattern; fullCode := full |}
    /\ String.length pattern = 95%nat
    /\ allBits pattern = true
    /\ substring 0 3 pattern = "101"
    /\ substring 45 50 pattern = "01010"
    /\ substring 92 95 pattern = "101".
Proof.
  intros Hn.
  destruct (encode_halves code options full Hn)
    as [left [right [He [Hll [Hlb [Hrl Hrb]]]]]].
  eexists. split; [exact He|].
  assert (String.length ("101" ++ left) = 45%nat) as H45
      by (rewrite length_append, Hll; reflexivity).
  assert (String.length ((("101" ++ left) ++ "01010") ++ right) = 92%nat)
    as H92 by (rewrite !length_append, Hll, Hrl; reflexivity).
  repeat split.
  - rewrite !length_append, Hll, Hrl. reflexivity.
  - rewrite !allBits_append, Hlb, Hrb. reflexivity.
  - cbn. now destruct left.
  - pose proof (substring_append_skip ("101" ++ left)
                  ("01010" ++ (right ++ "101")) 0 5) as Hskip.
    rewrite H45 in Hskip. unfold substring.
    rewrite (append_assoc (("101" ++ left) ++ "01010")).
    rewrite (append_assoc ("101" ++ left)).
    etransitivity; [exact Hskip | exact (prefix_append "01010" _)].
  - pose proof (substring_append_skip
                  ((("101" ++ left) ++ "01010") ++ right) "101" 0 3) as Hskip.
    rewrite H92 in Hskip. unfold substring.
    etransitivity; [exact Hskip | reflexivity].
Qed.

Lemma encode_pattern_witness :
  normalizeInput "01234567890" noOptions = Return "012345678905"
  /\ exists pattern,
      encode "01234567890" noOptions
      = Return {| encoding := pattern; fullCode := "012345678905" |}
      /\ String.length pattern = 95%nat.
Proof.
  split; [reflexivity|].
  destruct (encode_pattern "01234567890" noOptions "012345678905" eq_refl)
    as [pattern [He [Hl _]]].
  exists pattern. split; assumption.
Defined.

(** C7, amended: for every digit, the R-code is the character-wise
    complement of the L-code, read in the same order. *)
Theorem R_CODES_complement (d : Z) :
  0 <= d <= 9 ->
  exists l r,
    arrayGet L_CODES (Int d) = Some l /\ arrayGet R_CODES (Int d) = Some r
    /\ String.length l = 7%nat /\ r = Spec.complement l.
Proof.
  intros Hd. each_digit d Hd; do 2 eexists; repeat split.
Qed.

Lemma R_CODES_complement_witness :
  0 <= 3 <= 9
  /\ exists l r,
      arrayGet L_CODES (Int 3) = Some l /\ arrayGet R_CODES (Int 3) = Some r
      /\ String.length l = 7%nat /\ r = Spec.complement l.
Proof.
  split; [lia|]. apply (R_CODES_complement 3). lia.
Defined.

(** For digit 0 the L-code is ["0001101"]; reversed and complemented it is
    ["0100111"], and the R-code is ["1110010"].  The statement of C7 fails
    there. *)
Lemma R_CODES_reverse_counterexample : ~ reverseComplementStatement 0.
Proof.
  intros [l [r [Hl [Hr Heq]]]].
  injection Hl as <-. injection Hr as <-. discriminate.
Qed.

(** No digit at all satisfies it: an L-code starts with ['0'] and ends with
    ['1'], so it is not its own mirror image. *)
Lemma R_CODES_never_reversed (d : Z) :
  0 <= d <= 9 -> ~ reverseComplementStatement d.
Proof.
  intros Hd [l [r [Hl [Hr Heq]]]].
  each_digit d Hd; injection Hl as <-; injection Hr as <-; discriminate.
Qed.

Example whole_table_complement : R_CODES = map Spec.complement L_CODES.
Proof. reflexivity. Qed.

(** ** formatUPC *)

(** C10: on an input that sanitizes to twelve digits, [formatUPC] returns
    those twelve digits as they are, grouped 1-5-5-1 with hyphens, whatever
    the twelfth digit is and whatever the normalizer would do: the
    normalizer is not called. *)
Theorem formatUPC_verbatim (raw : string) :
  String.length (stripNonDigits raw) = 12%nat ->
  exists formatted,
    Spec.grouped (stripNonDigits raw) = Some formatted
    /\ formatUPC raw = Return formatted
    /\ stripNonDigits formatted = stripNonDigits raw
    /\ forall normalize, formatUPCWith normalize raw = Return formatted.
Proof.
  intros Hl. unfold formatUPC, formatUPCWith. rewrite Hl. cbn [Nat.eqb negb bind].
  pose proof (allDigits_stripNonDigits raw) as Hd.
  destruct (stripNonDigits raw) as [|c0 code]; [discriminate|].
  do 11 (destruct code as [|? code]; [discriminate|]).
  destruct code; [|discriminate].
  cbn [allDigits] in Hd.
  repeat (apply andb_true_iff in Hd as [? Hd]).
  eexists. split; [reflexivity|].
  split; [reflexivity|]. split; [|reflexivity].
  cbn [string_of_list_ascii stripNonDigits].
  change (isDigit "-") with false. cbn iota.
  repeat match goal with H : isDigit _ = true |- _ => rewrite H; clear H end.
  reflexivity.
Qed.

Lemma formatUPC_verbatim_witness :
  String.length (stripNonDigits "012345678900") = 12%nat
  /\ formatUPC "012345678900" = Return "0-12345-67890-0"
  /\ normalizeInput "012345678900" noOptions = Return "012345678905".
Proof.
  split; [reflexivity|].
  destruct (formatUPC_verbatim "012345678900" eq_refl)
    as [formatted [Hg [Hf _]]].
  injection Hg as <-. split; [exact Hf | reflexivity].
Defined.

(** ** The renderers *)

Lemma encode_inversion (code : string) (options : Options) (e : Encoded) :
  encode code options = Return e ->
  normalizeInput code options = Return (fullCode e)
  /\ String.length (encoding e) = 95%nat.
Proof.
  intros He. destruct (normalizeInput code options) as [full|m] eqn:Hn.
  - destruct (encode_halves code options full Hn)
      as [left [right [Hp [Hll [_ [Hrl _]]]]]].
    rewrite Hp in He. injection He as <-. split; [reflexivity|].
    change (String.length (((("101" ++ left) ++ "01010") ++ right) ++ "101")
            = 95%nat).
    rewrite !length_append, Hll, Hrl. reflexivity.
  - unfold encode in He. rewrite Hn in He. discriminate.
Qed.

Lemma isGuard_region (i : nat) :
  (i < 95)%nat -> isGuard i = Spec.inGuardRegion i.
Proof.
  intros Hi. unfold isGuard, Spec.inGuardRegion.
  apply eq_true_iff_eq.
  rewrite !orb_true_iff, !andb_true_iff, !Nat.ltb_lt, !Nat.leb_le. lia.
Qed.

Lemma inkModules_bound (encoding : string) (i : nat) :
  In i (inkModules encoding) ->
  (i < String.length encoding)%nat /\ charAt encoding i = Some "1"%char.
Proof.
  unfold inkModules. intros Hi. apply filter_In in Hi as [Hseq Hone].
  apply in_seq in Hseq. split; [lia|].
  unfold isOne in Hone. destruct (charAt encoding i) as [c|]; [|discriminate].
  apply Ascii.eqb_eq in Hone. now subst.
Qed.

Section RenderingFacts.

Context {num : Type} {N : Number num}.
Local Open Scope num_scope.

Lemma getAttribute_set_same (name : string) (value : AttrValue num)
      (attrs : Attrs num) :
  getAttribute name (setAttribute name value attrs) = Some value.
Proof.
  induction attrs as [|[k v] rest IH]; simpl.
  - now rewrite String.eqb_refl.
  - destruct (String.eqb k name) eqn:Hk; simpl; now rewrite Hk.
Qed.

Lemma getAttribute_set_other (name other : string) (value : AttrValue num)
      (attrs : Attrs num) :
  name <> other ->
  getAttribute name (setAttribute other value attrs)
  = getAttribute name attrs.
Proof.
  intros Hne. induction attrs as [|[k v] rest IH]; simpl.
  - destruct (String.eqb_spec other name); [congruence | reflexivity].
  - destruct (String.eqb_spec k other) as [-> | Hko]; simpl.
    + destruct (String.eqb_spec other name); [congruence | reflexivity].
    + destruct (String.eqb k name); [reflexivity | exact IH].
Qed.

(** The guard height of the code is the one of the specification. *)
Lemma barHeight_spec (opts : Settings num) (i : nat) :
  (i < 95)%nat ->
  (if String.eqb (style opts) "notched" && isGuard i
   then (if String.eqb (style opts) "notched"
         then height opts + guardExtend opts else height opts)
   else height opts)
  = specBarHeight opts i.
Proof.
  intros Hi. unfold specBarHeight. rewrite (isGuard_region i Hi).
  now destruct (String.eqb (style opts) "notched").
Qed.

Lemma xAfter_step (x moduleWidth : num) (i j : nat) :
  (S i <= j)%nat ->
  xAfter (x + moduleWidth) moduleWidth (j - S i)
  = xAfter x moduleWidth (j - i).
Proof.
  intros Hij. replace (j - i)%nat with (S (j - S i)) by lia. reflexivity.
Qed.

(** The canvas loop draws one rectangle per ink module, in order. *)
Lemma canvasBars_spec (encoding : string) (opts : Settings num)
      (offsetY : num) (n i : nat) (x : num) :
  (i + n <= 95)%nat ->
  canvasBars encoding (style opts) offsetY (moduleWidth opts) (height opts)
             (specGuardHeight opts) n i x
  = map (fun j => FillRect (xAfter x (moduleWidth opts) (j - i)) offsetY
                           (moduleWidth opts) (specBarHeight opts j))
        (filter (fun j => isOne (charAt encoding j)) (seq i n)).
Proof.
  revert i x. induction n as [|n IH]; intros i x Hn; [reflexivity|].
  cbn [canvasBars seq filter]. rewrite IH by lia.
  unfold specGuardHeight at 1. rewrite barHeight_spec by lia.
  assert (map (fun j => FillRect
                 (xAfter (x + moduleWidth opts) (moduleWidth opts) (j - S i))
                 offsetY (moduleWidth opts) (specBarHeight opts j))
              (filter (fun j => isOne (charAt encoding j)) (seq (S i) n))
          = map (fun j => FillRect
                   (xAfter x (moduleWidth opts) (j - i))
                   offsetY (moduleWidth opts) (specBarHeight opts j))
                (filter (fun j => isOne (charAt encoding j)) (seq (S i) n)))
    as ->.
  { apply map_ext_in. intros j Hj.
    apply filter_In in Hj as [Hj _]. apply in_seq in Hj.
    rewrite xAfter_step by lia. reflexivity. }
  destruct (isOne (charAt encoding i)); cbn [app map];
    [rewrite Nat.sub_diag|]; reflexivity.
Qed.

(** The SVG loop appends one [rect] per ink module, in order. *)
Lemma svgBars_spec (encoding : string) (opts : Settings num)
      (offsetY : num) (n i : nat) (x : num) :
  (i + n <= 95)%nat ->
  svgBars encoding (style opts) (foreground opts) offsetY (moduleWidth opts)
          (height opts) (specGuardHeight opts) n i x
  = map (fun j => svgBar (xAfter x (moduleWidth opts) (j - i)) offsetY
                         (moduleWidth opts) (specBarHeight opts j)
                         (foreground opts))
        (filter (fun j => isOne (charAt encoding j)) (seq i n)).
Proof.
  revert i x. induction n as [|n IH]; intros i x Hn; [reflexivity|].
  cbn [svgBars seq filter]. rewrite IH by lia.
  unfold specGuardHeight at 1. rewrite barHeight_spec by lia.
  assert (map (fun j => svgBar
                 (xAfter (x + moduleWidth opts) (moduleWidth opts) (j - S i))
                 offsetY (moduleWidth opts) (specBarHeight opts j)
                 (foreground opts))
              (filter (fun j => isOne (charAt encoding j)) (seq (S i) n))
          = map (fun j => svgBar
                   (xAfter x (moduleWidth opts) (j - i))
                   offsetY (moduleWidth opts) (specBarHeight opts j)
                   (foreground opts))
                (filter (fun j => isOne (charAt encoding j)) (seq (S i) n)))
    as ->.
  { apply map_ext_in. intros j Hj.
    apply filter_In in Hj as [Hj _]. apply in_seq in Hj.
    rewrite xAfter_step by lia. reflexivity. }
  destruct (isOne (charAt encoding i)); cbn [app map];
    [rewrite Nat.sub_diag|]; reflexivity.
Qed.

(** Merging the caller's options over [DEFAULTS] puts in force what the
    specification lists. *)
Lemma mergeOptions_inForce (options : Opt.t num) :
  mergeOptions DEFAULTS options = inForce options.
Proof. destruct options; reflexivity. Qed.

(** The size both renderers compute, over the merged options. *)
Lemma sizes_of_merged (canvas : Canvas num) (svg : Svg num)
      (code : string) (options : Opt.t num) (e : Encoded) :
  let opts := mergeOptions DEFAULTS options in
  encode code (policy (checksumSetting opts)) = Return e ->
  exists cv sv,
    render (Some canvas) code options = Return cv
    /\ renderSVG (Some svg) code options = Return sv
    /\ canvasWidth cv = specTotalWidth opts
    /\ canvasHeight cv = specTotalHeight opts
    /\ getAttribute "width" (svgAttrs sv)
       = Some (NumValue (specTotalWidth opts))
    /\ getAttribute "height" (svgAttrs sv)
       = Some (NumValue (specTotalHeight opts))
    /\ getAttribute "viewBox" (svgAttrs sv)
       = Some (ViewBoxValue (specTotalWidth opts) (specTotalHeight opts)).
Proof.
  intros opts He.
  destruct (encode_inversion _ _ _ He) as [_ Hlen].
  unfold render, renderSVG. fold opts. unfold policy in He.
  rewrite He. cbn [bind]. rewrite Hlen.
  do 2 eexists. split; [reflexivity|]. split; [reflexivity|].
  cbn [canvasWidth canvasHeight svgAttrs].
  split; [reflexivity|]. split; [reflexivity|].
  split; [|split].
  - rewrite !getAttribute_set_other by discriminate.
    now rewrite getAttribute_set_same.
  - rewrite getAttribute_set_other by discriminate.
    now rewrite getAttribute_set_same.
  - now rewrite getAttribute_set_same.
Qed.

(** What both renderers emit, over the merged options: the background,
    one rectangle per ink module, then no rectangle any more. *)
Lemma bars_of_merged (canvas : Canvas num) (svg : Svg num)
      (code : string) (options : Opt.t num) (e : Encoded) :
  let opts := mergeOptions DEFAULTS options in
  let x := xAfter (barcodeStart opts) (moduleWidth opts) in
  let bar := fun i =>
    FillRect (x i) (paddingTop opts) (moduleWidth opts)
             (specBarHeight opts i) in
  let rect := fun i =>
    svgBar (x i) (paddingTop opts) (moduleWidth opts)
           (specBarHeight opts i) (foreground opts) in
  let backgroundRect :=
    setAttribute "fill" (StrValue (background opts))
      (setAttribute "height" (NumValue (specTotalHeight opts))
        (setAttribute "width" (NumValue (specTotalWidth opts)) [])) in
  encode code (policy (checksumSetting opts)) = Return e ->
  exists cv sv text nodes,
    render (Some canvas) code options = Return cv
    /\ renderSVG (Some svg) code options = Return sv
    /\ canvasOps cv
       = ([ SetFillStyle (background opts);
            FillRect (lit 0) (lit 0) (specTotalWidth opts)
                     (specTotalHeight opts);
            SetFillStyle (foreground opts) ]
          ++ map bar (inkModules (encoding e)) ++ text)%list
    /\ forallb (fun op => negb (isFillRect op)) text = true
    /\ svgChildren sv
       = (RectNode backgroundRect
          :: map rect (inkModules (encoding e)) ++ nodes)%list
    /\ forallb (fun node => negb (isRectNode node)) nodes = true
    /\ (forall i, In i (inkModules (encoding e)) -> (i < 95)%nat).
Proof.
  intros opts x bar rect backgroundRect He.
  destruct (encode_inversion _ _ _ He) as [_ Hlen].
  assert (map bar (inkModules (encoding e))
          = canvasBars (encoding e) (style opts) (paddingTop opts)
              (moduleWidth opts) (height opts) (specGuardHeight opts)
              95 0 (barcodeStart opts)) as Hbars.
  { rewrite canvasBars_spec by lia. unfold inkModules. rewrite Hlen.
    apply map_ext. intros j. unfold bar, x. now rewrite Nat.sub_0_r. }
  assert (map rect (inkModules (encoding e))
          = svgBars (encoding e) (style opts) (foreground opts)
              (paddingTop opts) (moduleWidth opts) (height opts)
              (specGuardHeight opts) 95 0 (barcodeStart opts)) as Hrects.
  { rewrite svgBars_spec by lia. unfold inkModules. rewrite Hlen.
    apply map_ext. intros j. unfold rect, x. now rewrite Nat.sub_0_r. }
  rewrite Hbars, Hrects.
  unfold render, renderSVG. fold opts. unfold policy in He.
  rewrite He. cbn [bind]. rewrite Hlen.
  do 4 eexists.
  split; [reflexivity|]. split; [reflexivity|].
  split; [reflexivity|].
  split; [destruct (fontSize opts >? lit 0); reflexivity|].
  split; [reflexivity|].
  split; [destruct (fontSize opts >? lit 0); reflexivity|].
  intros i Hi. apply inkModules_bound in Hi as [Hi _]. now rewrite <- Hlen.
Qed.

Lemma canvasRects_app (a b : list (CanvasOp num)) :
  canvasRects (a ++ b) = (canvasRects a ++ canvasRects b)%list.
Proof.
  induction a as [|op a IH]; [reflexivity|].
  destruct op; cbn [canvasRects app]; now rewrite IH.
Qed.

Lemma svgRects_app (a b : list (SvgNode num)) :
  svgRects (a ++ b) = (svgRects a ++ svgRects b)%list.
Proof.
  induction a as [|node a IH]; [reflexivity|].
  destruct node; cbn [svgRects app]; now rewrite IH.
Qed.

Lemma canvasRects_none (ops : list (CanvasOp num)) :
  forallb (fun op => negb (isFillRect op)) ops = true -> canvasRects ops = [].
Proof.
  induction ops as [|op ops IH]; [reflexivity|].
  cbn [forallb]. intros H. apply andb_true_iff in H as [Hop Hops].
  destruct op; cbn [canvasRects]; try now apply IH. discriminate.
Qed.

Lemma svgRects_none (nodes : list (SvgNode num)) :
  forallb (fun node => negb (isRectNode node)) nodes = true ->
  svgRects nodes = [].
Proof.
  induction nodes as [|node nodes IH]; [reflexivity|].
  cbn [forallb]. intros H. apply andb_true_iff in H as [Hn Hnodes].
  destruct node; cbn [svgRects]; [discriminate | now apply IH].
Qed.

Lemma canvasRects_bars (x y w h : nat -> num) (modules : list nat) :
  canvasRects (map (fun i => FillRect (x i) (y i) (w i) (h i)) modules)
  = map (fun i => (x i, y i, w i, h i)) modules.
Proof.
  induction modules as [|i modules IH]; [reflexivity|].
  cbn [map canvasRects]. now rewrite IH.
Qed.

(** The attributes of a bar of the SVG renderer, read back. *)
Lemma svgRects_bars (x y w h : nat -> num) (fill : string)
      (modules : list nat) :
  svgRects (map (fun i => svgBar (x i) (y i) (w i) (h i) fill) modules)
  = map (fun i => {| rectX := Some (NumValue (x i));
                     rectY := Some (NumValue (y i));
                     rectWidth := Some (NumValue (w i));
                     rectHeight := Some (NumValue (h i));
                     rectFill := Some (StrValue fill) |}) modules.
Proof.
  induction modules as [|i modules IH]; [reflexivity|].
  cbn [map]. unfold svgBar at 1. cbn [svgRects]. now rewrite IH.
Qed.

(** C8: for every code and options on which encoding succeeds, the canvas
    and the SVG renderer compute the same total width and height, those of
    the specification over the options in force (the caller's value where
    given, the default otherwise): the outer digit space, the quiet zone, 95
    modules, the quiet zone and the outer digit space, then the paddings;
    and the guard height, the font size and the text margin, then the
    paddings. *)
Theorem render_renderSVG_same_size (canvas : Canvas num) (svg : Svg num)
        (code : string) (options : Opt.t num) (e : Encoded) :
  let opts := inForce options in
  encode code (policy (checksumSetting opts)) = Return e ->
  exists cv sv,
    render (Some canvas) code options = Return cv
    /\ renderSVG (Some svg) code options = Return sv
    /\ canvasWidth cv = specTotalWidth opts
    /\ canvasHeight cv = specTotalHeight opts
    /\ getAttribute "width" (svgAttrs sv)
       = Some (NumValue (specTotalWidth opts))
    /\ getAttribute "height" (svgAttrs sv)
       = Some (NumValue (specTotalHeight opts))
    /\ getAttribute "viewBox" (svgAttrs sv)
       = Some (ViewBoxValue (specTotalWidth opts) (specTotalHeight opts)).
Proof.
  intros opts He. subst opts.
  rewrite <- (mergeOptions_inForce options) in *.
  exact (sizes_of_merged canvas svg code options e He).
Qed.

(** C9: in both renderers, for every code and options, the rectangles
    drawn are the background and then the bars, one per ink module of the
    95-module pattern, from left to right, and nothing drawn after the bars
    is a rectangle.  Read back from the canvas calls and from the
    attributes of the [rect] elements, the bar of module [i] has the height
    of the specification over the options in force: with style [flat]
    always [height]; with style [notched] [height + guardExtend] when [i]
    lies in a guard region (0-2, 45-49, 92-94) and [height] otherwise. *)
Theorem bar_heights (canvas : Canvas num) (svg : Svg num)
        (code : string) (options : Opt.t num) (e : Encoded) :
  let opts := inForce options in
  let x := xAfter (barcodeStart opts) (moduleWidth opts) in
  let bar := fun i =>
    FillRect (x i) (paddingTop opts) (moduleWidth opts)
             (specBarHeight opts i) in
  let rect := fun i =>
    svgBar (x i) (paddingTop opts) (moduleWidth opts)
           (specBarHeight opts i) (foreground opts) in
  encode code (policy (checksumSetting opts)) = Return e ->
  exists cv sv text nodes backgroundRect,
    render (Some canvas) code options = Return cv
    /\ renderSVG (Some svg) code options = Return sv
    /\ canvasOps cv
       = ([ SetFillStyle (background opts);
            FillRect (lit 0) (lit 0) (specTotalWidth opts)
                     (specTotalHeight opts);
            SetFillStyle (foreground opts) ]
          ++ map bar (inkModules (encoding e)) ++ text)%list
    /\ forallb (fun op => negb (isFillRect op)) text = true
    /\ svgChildren sv
       = (RectNode backgroundRect
          :: map rect (inkModules (encoding e)) ++ nodes)%list
    /\ getAttribute "height" backgroundRect
       = Some (NumValue (specTotalHeight opts))
    /\ forallb (fun node => negb (isRectNode node)) nodes = true
    /\ (forall i, In i (inkModules (encoding e)) -> (i < 95)%nat)
    /\ (style opts = "flat" ->
        forall i, specBarHeight opts i = height opts)
    /\ (style opts = "notched" ->
        forall i, specBarHeight opts i
                  = if Spec.inGuardRegion i
                    then height opts + guardExtend opts else height opts)
    /\ canvasRects (canvasOps cv)
       = (lit 0, lit 0, specTotalWidth opts, specTotalHeight opts)
         :: map (fun i => (x i, paddingTop opts, moduleWidth opts,
                           specBarHeight opts i))
                (inkModules (encoding e))
    /\ svgRects (svgChildren sv)
       = {| rectX := None;
            rectY := None;
            rectWidth := Some (NumValue (specTotalWidth opts));
            rectHeight := Some (NumValue (specTotalHeight opts));
            rectFill := Some (StrValue (background opts)) |}
         :: map (fun i =>
                   {| rectX := Some (NumValue (x i));
                      rectY := Some (NumValue (paddingTop opts));
                      rectWidth := Some (NumValue (moduleWidth opts));
                      rectHeight := Some (NumValue (specBarHeight opts i));
                      rectFill := Some (StrValue (foreground opts)) |})
                (inkModules (encoding e)).
Proof.
  intros opts x bar rect He. subst rect bar x opts.
  rewrite <- (mergeOptions_inForce options) in *.
  set (opts := mergeOptions DEFAULTS options) in *.
  destruct (bars_of_merged canvas svg code options e He)
    as [cv [sv [text [nodes
         [Hr [Hs [Hops [Htext [Hch [Hnodes Hbound]]]]]]]]]].
  fold opts in Hops, Hch.
  exists cv, sv, text, nodes. eexists.
  split; [exact Hr|]. split; [exact Hs|]. split; [exact Hops|].
  split; [exact Htext|]. split; [exact Hch|].
  split; [reflexivity|]. split; [exact Hnodes|]. split; [exact Hbound|].
  split; [intros Hst i; unfold specBarHeight; now rewrite Hst|].
  split; [intros Hst i; unfold specBarHeight; now rewrite Hst|].
  split.
  - rewrite Hops, !canvasRects_app.
    rewrite (canvasRects_none text Htext), app_nil_r.
    rewrite (canvasRects_bars
               (xAfter (barcodeStart opts) (moduleWidth opts))
               (fun _ => paddingTop opts) (fun _ => moduleWidth opts)
               (specBarHeight opts)).
    reflexivity.
  - rewrite Hch. cbn [svgRects]. rewrite svgRects_app.
    rewrite (svgRects_none nodes Hnodes), app_nil_r.
    rewrite (svgRects_bars
               (xAfter (barcodeStart opts) (moduleWidth opts))
               (fun _ => paddingTop opts) (fun _ => moduleWidth opts)
               (specBarHeight opts)).
    reflexivity.
Qed.

End RenderingFacts.

(** On IEEE doubles, with every geometric option set by the caller, the
    barcode is 386 by 76 in style [flat]; nothing of it is the default
    244 by 96. *)
Lemma render_renderSVG_same_size_witness :
  exists e cv sv,
    encode "012345678905" (policy "validate") = Return e
    /\ render (Some blankCanvas) "012345678905" flatOptions = Return cv
    /\ renderSVG (Some emptySvg) "012345678905" flatOptions = Return sv
    /\ canvasWidth cv = 386%float
    /\ canvasHeight cv = 76%float
    /\ getAttribute "width" (svgAttrs sv) = Some (NumValue 386%float)
    /\ getAttribute "height" (svgAttrs sv) = Some (NumValue 76%float).
Proof.
  destruct (encode "012345678905" (policy "validate")) as [e|m] eqn:He;
    [|vm_compute in He; discriminate He].
  destruct (render_renderSVG_same_size blankCanvas emptySvg "012345678905"
              flatOptions e He)
    as [cv [sv [Hr [Hs [Hw [Hh [Hsw [Hsh _]]]]]]]].
  exists e, cv, sv.
  split; [reflexivity|]. split; [exact Hr|]. split; [exact Hs|].
  split; [exact Hw|]. split; [exact Hh|]. split; [exact Hsw | exact Hsh].
Defined.

(** On IEEE doubles, with height 50 and guard extension 8 set by the
    caller: in style [flat] the canvas fills the background and then bars
    that are all 50 high; in style [notched] the [rect] elements of the SVG
    carry height 58 for the two bars of the start guard and 50 for the bars
    of the first digit. *)
Lemma bar_heights_witness :
  (exists cv,
      render (Some blankCanvas) "012345678905" flatOptions = Return cv
      /\ firstn 5 (canvasRects (canvasOps cv))
         = [ (0%float, 0%float, 386%float, 76%float);
             (50%float, 4%float, 3%float, 50%float);
             (56%float, 4%float, 3%float, 50%float);
             (68%float, 4%float, 3%float, 50%float);
             (71%float, 4%float, 3%float, 50%float) ]
      /\ map (fun r => snd r) (tl (canvasRects (canvasOps cv)))
         = List.repeat 50%float
             (List.length (tl (canvasRects (canvasOps cv)))))
  /\ (exists sv,
         renderSVG (Some emptySvg) "012345678905" notchedOptions = Return sv
         /\ map (fun r => (rectX r, rectHeight r))
                (firstn 5 (svgRects (svgChildren sv)))
            = [ (None, Some (NumValue 84%float));
                (Some (NumValue 50%float), Some (NumValue 58%float));
                (Some (NumValue 56%float), Some (NumValue 58%float));
                (Some (NumValue 68%float), Some (NumValue 50%float));
                (Some (NumValue 71%float), Some (NumValue 50%float)) ]).
Proof.
  destruct (encode "012345678905" (policy "validate")) as [e|m] eqn:He;
    [|vm_compute in He; discriminate He].
  split.
  - destruct (bar_heights blankCanvas emptySvg "012345678905" flatOptions
                e He)
      as [cv [sv [text [nodes [bg
           [Hr [_ [_ [_ [_ [_ [_ [_ [_ [_ [Hrects _]]]]]]]]]]]]]]]].
    exists cv. split; [exact Hr|].
    rewrite Hrects. vm_compute in He. injection He as <-.
    split; vm_compute; reflexivity.
  - destruct (bar_heights blankCanvas emptySvg "012345678905" notchedOptions
                e He)
      as [cv [sv [text [nodes [bg
           [_ [Hs [_ [_ [_ [_ [_ [_ [_ [_ [_ Hrects]]]]]]]]]]]]]]]].
    exists sv. split; [exact Hs|].
    rewrite Hrects. vm_compute in He. injection He as <-.
    vm_compute. reflexivity.
Defined.

(** * Further facts *)

(** ** Sanitization *)

Lemma stripNonDigits_idempotent (s : string) :
  stripNonDigits (stripNonDigits s) = stripNonDigits s.
Proof. apply stripNonDigits_allDigits, allDigits_stripNonDigits. Qed.

Lemma calculateChecksum_sanitized (s : string) :
  calculateChecksum (stripNonDigits s) = calculateChecksum s.
Proof. unfold calculateChecksum. now rewrite stripNonDigits_idempotent. Qed.

Lemma normalizeInput_sanitized (s : string) (options : Options) :
  normalizeInput (stripNonDigits s) options = normalizeInput s options.
Proof. unfold normalizeInput. now rewrite stripNonDigits_idempotent. Qed.

Lemma validate_sanitized (s : string) : validate (stripNonDigits s) = validate s.
Proof. unfold validate. now rewrite stripNonDigits_idempotent. Qed.

Lemma formatUPC_sanitized (s : string) :
  formatUPC (stripNonDigits s) = formatUPC s.
Proof.
  unfold formatUPC, formatUPCWith. now rewrite stripNonDigits_idempotent.
Qed.

Lemma encode_sanitized (s : string) (options : Options) :
  encode (stripNonDigits s) options = encode s options.
Proof. unfold encode. now rewrite normalizeInput_sanitized. Qed.

(** X1: the five code functions see only the decimal digits of their
    input: two inputs with the same digits in the same order, whatever
    separators surround them, give the same check digit, the same normalized
    code or error, the same validity, the same formatted string and the same
    pattern. *)
Theorem separators_ignored (a b : string) (options : Options) :
  stripNonDigits a = stripNonDigits b ->
  calculateChecksum a = calculateChecksum b
  /\ normalizeInput a options = normalizeInput b options
  /\ validate a = validate b
  /\ formatUPC a = formatUPC b
  /\ encode a options = encode b options.
Proof.
  intros Hab.
  rewrite <- (calculateChecksum_sanitized a), <- (calculateChecksum_sanitized b).
  rewrite <- (normalizeInput_sanitized a), <- (normalizeInput_sanitized b).
  rewrite <- (validate_sanitized a), <- (validate_sanitized b).
  rewrite <- (formatUPC_sanitized a), <- (formatUPC_sanitized b).
  rewrite <- (encode_sanitized a), <- (encode_sanitized b).
  now rewrite Hab.
Qed.

Lemma separators_ignored_witness :
  stripNonDigits "0-12345-67890-5" = stripNonDigits "0 12345 67890 5 (UPC)"
  /\ validate "0-12345-67890-5" = validate "0 12345 67890 5 (UPC)"
  /\ formatUPC "0-12345-67890-5" = formatUPC "0 12345 67890 5 (UPC)".
Proof.
  split; [reflexivity|].
  destruct (separators_ignored "0-12345-67890-5" "0 12345 67890 5 (UPC)"
              noOptions eq_refl) as [_ [_ [Hv [Hf _]]]].
  split; assumption.
Defined.

(** ** validate and normalizeInput *)

(** X2: [validate] accepts an input exactly when at least one digit
    remains after stripping and [normalizeInput] returns under the policy
    [validate]. *)
Theorem validate_iff_normalizes (raw : string) :
  validate raw = true
  <-> (1 <= String.length (stripNonDigits raw))%nat
      /\ exists full, normalizeInput raw (policy "validate") = Return full.
Proof.
  unfold validate.
  destruct (Nat.eqb_spec (String.length (stripNonDigits raw)) 11) as [H11|H11].
  { split; [intros _ | reflexivity]. split; [lia|].
    unfold normalizeInput. rewrite H11. cbn [Nat.eqb]. eauto. }
  destruct (Nat.eqb_spec (String.length (stripNonDigits raw)) 12) as [H12|H12].
  { rewrite (validate_twelve raw (policy "validate") H12 eq_refl).
    destruct (strict_eq _ _).
    - split; [intros _ | reflexivity]. split; [lia | eauto].
    - split; [discriminate|]. intros [_ [full Hf]]. discriminate. }
  destruct (Nat.ltb_spec (String.length (stripNonDigits raw)) 11) as [Hlt|Hge].
  - rewrite andb_true_r.
    assert (exists full, normalizeInput raw (policy "validate") = Return full)
      as Hret.
    { unfold normalizeInput.
      destruct (Nat.eqb_spec (String.length (stripNonDigits raw)) 11); [lia|].
      destruct (Nat.eqb_spec (String.length (stripNonDigits raw)) 12); [lia|].
      destruct (Nat.ltb_spec (String.length (stripNonDigits raw)) 11); [|lia].
      eauto. }
    destruct (Nat.ltb_spec 0 (String.length (stripNonDigits raw))).
    + split; [intros _; split; [lia | exact Hret] | reflexivity].
    + split; [discriminate|]. intros [Hp _]. lia.
  - rewrite andb_false_r. split; [discriminate|]. intros [_ [full Hf]].
    unfold normalizeInput in Hf.
    destruct (Nat.eqb_spec (String.length (stripNonDigits raw)) 11); [lia|].
    destruct (Nat.eqb_spec (String.length (stripNonDigits raw)) 12); [lia|].
    destruct (Nat.ltb_spec (String.length (stripNonDigits raw)) 11); [lia|].
    discriminate.
Qed.

Lemma validate_iff_normalizes_witness :
  validate "0-12345-67890-5" = true
  /\ validate "012345678900" = false.
Proof.
  split.
  - apply (proj2 (validate_iff_normalizes "0-12345-67890-5")).
    split; [simpl; lia | eexists; reflexivity].
  - destruct (validate "012345678900") eqn:Hv; [|reflexivity].
    apply (proj1 (validate_iff_normalizes "012345678900")) in Hv
      as [_ [full Hf]].
    vm_compute in Hf. discriminate Hf.
Defined.

Lemma prefix_snoc (n : nat) (s : string) (c : ascii) :
  charAt s n = Some c -> String.length s = S n ->
  s = String.substring 0 n s ++ String c "".
Proof.
  unfold charAt. revert s.
  induction n as [|n IH]; intros [|x s]; simpl; try discriminate.
  - intros [= ->] Hl. destruct s; [reflexivity | discriminate].
  - intros Hc Hl. f_equal. apply IH; [assumption | lia].
Qed.

Lemma charAt_digit (s : string) (i : nat) (c : ascii) :
  allDigits s = true -> charAt s i = Some c -> isDigit c = true.
Proof.
  unfold charAt. revert i.
  induction s as [|x s IH]; intros i Hd; simpl; [discriminate|].
  apply andb_true_iff in Hd as [Hx Hs].
  destruct i as [|i]; [now intros [= <-] | now apply IH].
Qed.

Lemma charAt_defined (s : string) (i : nat) :
  (i < String.length s)%nat -> exists c, charAt s i = Some c.
Proof.
  unfold charAt. revert i.
  induction s as [|x s IH]; intros i; simpl; [lia|].
  destruct i as [|i]; [eauto | intros Hi; apply IH; lia].
Qed.

(** A digit character is determined by its value. *)
Lemma digitValue_injective (c c' : ascii) :
  digitValue c = digitValue c' -> c = c'.
Proof.
  unfold digitValue. intros H.
  rewrite <- (ascii_nat_embedding c), <- (ascii_nat_embedding c').
  f_equal. lia.
Qed.

Lemma toString_of_digit (c : ascii) :
  isDigit c = true -> toString (Int (digitValue c)) = String c "".
Proof.
  intros Hc.
  destruct (toString_digit _ (isDigit_value c Hc)) as [c' [Hs [Hd Hp]]].
  rewrite (parseInt_digit c' Hd) in Hp. injection Hp as Hp.
  apply digitValue_injective in Hp. now subst.
Qed.

(** A canonical code is its first eleven digits followed by their check
    digit. *)
Lemma canonical_rebuild (full : string) :
  canonical full ->
  substring 0 11 full ++ toString (calculateChecksum (substring 0 11 full))
  = full.
Proof.
  intros [Hl [Hd Hc]].
  destruct (charAt_defined full 11 ltac:(lia)) as [c Hat].
  pose proof (charAt_digit full 11 c Hd Hat) as Hdc.
  rewrite <- Hc, Hat, (parseInt_digit c Hdc), (toString_of_digit c Hdc).
  symmetry. now apply prefix_snoc.
Qed.

Lemma canonical_sanitized (full : string) :
  canonical full ->
  stripNonDigits full = full /\ String.length (stripNonDigits full) = 12%nat.
Proof.
  intros [Hl [Hd _]].
  rewrite (stripNonDigits_allDigits full Hd). now split.
Qed.

Lemma normalizeInput_of_canonical (full : string) (options : Options) :
  canonical full -> normalizeInput full options = Return full.
Proof.
  intros Hcan. destruct (canonical_sanitized full Hcan) as [Hs Hl].
  destruct (String.eqb (checksumModeOf options) "validate") eqn:Hm.
  - apply String.eqb_eq in Hm.
    rewrite (validate_twelve full options Hl Hm), Hs.
    destruct Hcan as [_ [_ Hc]]. rewrite Hc.
    destruct (calculateChecksum_digit (substring 0 11 full)) as [d [_ ->]].
    cbn [strict_eq]. now rewrite Z.eqb_refl.
  - rewrite (other_twelve full options Hl Hm), Hs.
    now rewrite canonical_rebuild.
Qed.

Lemma validate_of_canonical (full : string) :
  canonical full -> validate full = true.
Proof.
  intros Hcan. destruct (canonical_sanitized full Hcan) as [Hs Hl].
  unfold validate. rewrite Hs. destruct Hcan as [Hl' [_ Hc]].
  rewrite Hl'. cbn [Nat.eqb]. rewrite Hc.
  destruct (calculateChecksum_digit (substring 0 11 full)) as [d [_ ->]].
  cbn [strict_eq]. apply Z.eqb_refl.
Qed.

Lemma prefix_idempotent (m : nat) (s : string) :
  String.substring 0 m (String.substring 0 m s) = String.substring 0 m s.
Proof.
  revert s. induction m as [|m IH]; intros [|c s]; simpl; try reflexivity.
  now rewrite IH.
Qed.

(** X3: a code [normalizeInput] returned, under any policy, is valid and
    is a fixed point: [validate] accepts it and [normalizeInput] returns it
    unchanged under every policy, and [calculateChecksum] of it is its last
    digit. *)
Theorem normalized_is_stable (raw : string) (options : Options)
        (full : string) :
  normalizeInput raw options = Return full ->
  validate full = true
  /\ (forall options', normalizeInput full options' = Return full)
  /\ calculateChecksum full = parseInt (charAt full 11).
Proof.
  intros Hn. pose proof (normalizeInput_canonical _ _ _ Hn) as Hcan.
  split; [now apply validate_of_canonical|].
  split; [intros options'; now apply normalizeInput_of_canonical|].
  destruct Hcan as [Hl [Hd Hc]]. rewrite Hc.
  unfold calculateChecksum.
  rewrite (stripNonDigits_allDigits full Hd).
  rewrite (stripNonDigits_allDigits (substring 0 11 full))
    by now apply allDigits_prefix.
  rewrite Hl, (length_substring_11_of_12 full Hl). cbn [Nat.ltb Nat.leb].
  unfold substring at 2. cbn [Nat.sub].
  replace (String.substring 0 11 (substring 0 11 full))
    with (substring 0 11 full); [reflexivity|].
  unfold substring. cbn [Nat.sub]. symmetry. apply prefix_idempotent.
Qed.

Lemma normalized_is_stable_witness :
  normalizeInput "12345" (policy "recalculate") = Return "000000123457"
  /\ validate "000000123457" = true
  /\ normalizeInput "000000123457" (policy "validate")
     = Return "000000123457".
Proof.
  split; [reflexivity|].
  destruct (normalized_is_stable "12345" (policy "recalculate")
              "000000123457" eq_refl) as [Hv [Hfix _]].
  split; [exact Hv | exact (Hfix (policy "validate"))].
Defined.

(** The policy is consulted only on twelve digits. *)
Lemma policy_not_consulted (raw : string) (options options' : Options) :
  String.length (stripNonDigits raw) <> 12%nat ->
  normalizeInput raw options = normalizeInput raw options'.
Proof.
  intros Hne. unfold normalizeInput.
  destruct (Nat.eqb_spec (String.length (stripNonDigits raw)) 11);
    [reflexivity|].
  destruct (Nat.eqb_spec (String.length (stripNonDigits raw)) 12);
    [contradiction | reflexivity].
Qed.

(** X4: the policy can only reject: whatever code [normalizeInput]
    returns under some policy, it returns under the default policy too, and
    any policy whose name is not [validate], a misspelt one included, is the
    default policy. *)
Theorem policy_only_rejects (raw : string) (options : Options) :
  (forall full,
      normalizeInput raw options = Return full ->
      normalizeInput raw noOptions = Return full)
  /\ (checksumModeOf options <> "validate" ->
      normalizeInput raw options = normalizeInput raw noOptions).
Proof.
  destruct (Nat.eq_dec (String.length (stripNonDigits raw)) 12) as [H12|H12].
  - assert (String.eqb (checksumModeOf noOptions) "validate" = false) as Hno
        by reflexivity.
    rewrite (other_twelve raw noOptions H12 Hno).
    destruct (String.eqb (checksumModeOf options) "validate") eqn:Hm.
    + split.
      * intros full Hf. pose proof (normalizeInput_canonical _ _ _ Hf) as Hcan.
        apply String.eqb_eq in Hm.
        rewrite (validate_twelve raw options H12 Hm) in Hf.
        destruct (strict_eq _ _); [|discriminate].
        injection Hf as Hf. rewrite Hf. now rewrite canonical_rebuild.
      * intros Hne. apply String.eqb_eq in Hm. contradiction.
    + rewrite (other_twelve raw options H12 Hm). split; auto.
  - rewrite (policy_not_consulted raw options noOptions H12). split; auto.
Qed.

Lemma policy_only_rejects_witness :
  checksumModeOf (policy "Validate") <> "validate"
  /\ normalizeInput "012345678900" (policy "Validate") = Return "012345678905".
Proof.
  assert (checksumModeOf (policy "Validate") <> "validate") as Hne
      by discriminate.
  split; [exact Hne|].
  rewrite (proj2 (policy_only_rejects "012345678900" (policy "Validate")) Hne).
  reflexivity.
Defined.

(** ** Leading zeros *)

Lemma repeat_shift (c : ascii) (k : nat) (s : string) :
  repeat c (S k) ++ s = repeat c k ++ String c s.
Proof. induction k as [|k IH]; simpl in *; [reflexivity | now rewrite IH]. Qed.

Lemma padStart_leading_zero (s : string) :
  (String.length s <= 10)%nat ->
  padStart 11 "0" (String "0" s) = padStart 11 "0" s.
Proof.
  intros Hl. unfold padStart. cbn [String.length].
  replace (11 - String.length s)%nat with (S (11 - S (String.length s)))
    by lia.
  now rewrite repeat_shift.
Qed.

Lemma padStart_full (s : string) :
  (11 <= String.length s)%nat -> padStart 11 "0" s = s.
Proof.
  intros Hl. unfold padStart.
  replace (11 - String.length s)%nat with 0%nat by lia. reflexivity.
Qed.

(** X5: a zero written in front of an input of at most ten digits changes
    neither its check digit nor its normalized code: short inputs are
    numbers, padded on the left. *)
Theorem leading_zero_ignored (raw : string) (options : Options) :
  (String.length (stripNonDigits raw) <= 10)%nat ->
  calculateChecksum (String "0" raw) = calculateChecksum raw
  /\ normalizeInput (String "0" raw) options = normalizeInput raw options
  /\ formatUPC (String "0" raw) = formatUPC raw.
Proof.
  intros Hl. set (s := stripNonDigits raw) in *.
  assert (stripNonDigits (String "0" raw) = String "0" s) as Hs by reflexivity.
  assert ((if (String.length (String "0" s) <? 11)%nat
           then padStart 11 "0" (String "0" s) else String "0" s)
          = padStart 11 "0" s) as Hpad.
  { destruct (Nat.ltb_spec (String.length (String "0" s)) 11) as [Hlt|Hge].
    - now apply padStart_leading_zero.
    - rewrite <- (padStart_leading_zero s Hl). symmetry.
      now apply padStart_full. }
  assert (calculateChecksum (String "0" raw) = calculateChecksum raw) as Hcs.
  { unfold calculateChecksum. rewrite Hs. fold s. rewrite Hpad.
    destruct (Nat.ltb_spec (String.length s) 11); [reflexivity | lia]. }
  assert (forall o, normalizeInput (String "0" raw) o = normalizeInput raw o)
    as Hn.
  { intros o. unfold normalizeInput. rewrite Hs. fold s.
    destruct (Nat.eqb_spec (String.length s) 11); [lia|].
    destruct (Nat.eqb_spec (String.length s) 12); [lia|].
    destruct (Nat.ltb_spec (String.length s) 11); [|lia].
    destruct (Nat.eqb_spec (String.length (String "0" s)) 11) as [He|He].
    - rewrite <- (padStart_leading_zero s Hl).
      rewrite padStart_full by lia. reflexivity.
    - cbn [String.length] in He |- *.
      destruct (Nat.eqb_spec (S (String.length s)) 12); [lia|].
      destruct (Nat.ltb_spec (S (String.length s)) 11); [|lia].
      now rewrite (padStart_leading_zero s Hl). }
  split; [exact Hcs|]. split; [apply Hn|].
  unfold formatUPC, formatUPCWith. rewrite Hs. fold s.
  cbn [String.length].
  destruct (Nat.eqb_spec (S (String.length s)) 12); [lia|].
  destruct (Nat.eqb_spec (String.length s) 12); [lia|].
  cbn [negb].
  pose proof (Hn noOptions) as Hno.
  rewrite <- (normalizeInput_sanitized (String "0" raw)) in Hno.
  rewrite <- (normalizeInput_sanitized raw) in Hno.
  rewrite Hs in Hno. fold s in Hno. now rewrite Hno.
Qed.

Lemma leading_zero_ignored_witness :
  (String.length (stripNonDigits "12345") <= 10)%nat
  /\ normalizeInput "012345" noOptions = normalizeInput "12345" noOptions.
Proof.
  assert (String.length (stripNonDigits "12345") <= 10)%nat as Hl
      by (simpl; lia).
  split; [exact Hl|].
  exact (proj1 (proj2 (leading_zero_ignored "12345" noOptions Hl))).
Defined.

(** ** The check equation *)

Lemma prefix_whole (m : nat) (s : string) :
  (String.length s <= m)%nat -> String.substring 0 m s = s.
Proof.
  revert s. induction m as [|m IH]; intros [|c s]; simpl; intros Hle;
    try reflexivity; try lia.
  rewrite IH; [reflexivity | lia].
Qed.

Lemma elevenOf_eleven (t : string) :
  allDigits t = true -> String.length t = 11%nat -> elevenOf t = t.
Proof.
  intros Hd Hl. unfold elevenOf.
  rewrite (stripNonDigits_allDigits t Hd), Hl. cbn [Nat.ltb Nat.leb].
  unfold substring. apply prefix_whole. lia.
Qed.

Lemma checksum_of_eleven (t : string) :
  allDigits t = true -> String.length t = 11%nat ->
  calculateChecksum t
  = Int ((10 - Spec.weightedSum (digitsOf t) mod 10) mod 10).
Proof.
  intros Hd Hl. rewrite calculateChecksum_spec. unfold Spec.checksum.
  now rewrite <- elevenOf_spec, elevenOf_eleven.
Qed.

Lemma checkSum12_split (digits : list Z) :
  checkSum12 digits = Spec.weightedSum (firstn 11 digits) + nth 11 digits 0.
Proof.
  unfold checkSum12, Spec.weightedSum.
  cbn [seq map Zsum fold_right]. rewrite !nth_firstn.
  cbn [Nat.ltb Nat.leb]. unfold Spec.weight. cbn [Nat.even]. lia.
Qed.

(** On twelve digits, [validate] decides the check equation. *)
Lemma validate_check_equation (code : string) :
  allDigits code = true -> String.length code = 12%nat ->
  (validate code = true <-> checkSum12 (digitsOf code) mod 10 = 0).
Proof.
  intros Hd Hl. unfold validate.
  rewrite (stripNonDigits_allDigits code Hd), Hl. cbn [Nat.eqb].
  rewrite (parseInt_charAt code 11 Hd) by lia.
  rewrite checksum_of_eleven
    by (now apply allDigits_prefix || now apply length_substring_11_of_12).
  unfold substring. cbn [Nat.sub]. rewrite digitsOf_prefix.
  rewrite checkSum12_split. cbn [strict_eq]. rewrite Z.eqb_eq.
  assert (0 <= nth 11 (digitsOf code) 0 <= 9) as Hp.
  { pose proof (digitsOf_nonneg code Hd) as Hall.
    apply (proj1 (Forall_forall _ _) Hall), nth_In.
    rewrite digitsOf_length. lia. }
  set (p := nth 11 (digitsOf code) 0) in *.
  set (w := Spec.weightedSum (firstn 11 (digitsOf code))).
  Z.div_mod_to_equations. lia.
Qed.

(** X6: on twelve digits, [validate] accepts exactly the codes that
    satisfy the check equation: three times the digits at even indices plus
    the digits at odd indices, the check digit included, is a multiple of
    ten. *)
Theorem validate_is_check_equation (code : string) :
  allDigits code = true -> String.length code = 12%nat ->
  (validate code = true <-> checkSum12 (digitsOf code) mod 10 = 0).
Proof. exact (validate_check_equation code). Qed.

Lemma validate_is_check_equation_witness :
  allDigits "012345678905" = true
  /\ String.length "012345678905" = 12%nat
  /\ checkSum12 (digitsOf "012345678905") mod 10 = 0.
Proof.
  split; [reflexivity|]. split; [reflexivity|].
  apply (proj1 (validate_is_check_equation "012345678905" eq_refl eq_refl)).
  reflexivity.
Defined.

Lemma Zsum_app (l l' : list Z) : Zsum (l ++ l') = Zsum l + Zsum l'.
Proof. induction l as [|x l IH]; simpl; [reflexivity | rewrite IH; lia]. Qed.

(** Replacing the digit of index [k] changes the weighted sum by the weight
    of [k] times the difference. *)
Lemma weighted_replace (n : nat) (before after : list Z) (d d' : Z) :
  Zsum (map (fun i => Spec.weight i * nth i (before ++ d :: after) 0)
            (seq 0 n))
  - Zsum (map (fun i => Spec.weight i * nth i (before ++ d' :: after) 0)
              (seq 0 n))
  = if (List.length before <? n)%nat
    then Spec.weight (List.length before) * (d - d') else 0.
Proof.
  induction n as [|n IH]; [reflexivity|].
  rewrite seq_S, !map_app, !Zsum_app. cbn [Nat.add map Zsum fold_right].
  destruct (Nat.lt_trichotomy n (List.length before)) as [Hlt | [Heq | Hgt]].
  - rewrite !app_nth1 by assumption.
    destruct (Nat.ltb_spec (List.length before) n); [lia|].
    destruct (Nat.ltb_spec (List.length before) (S n)); lia.
  - subst n. rewrite !nth_middle.
    destruct (Nat.ltb_spec (List.length before) (List.length before)); [lia|].
    destruct (Nat.ltb_spec (List.length before) (S (List.length before)));
      lia.
  - rewrite !app_nth2 by lia.
    replace (n - List.length before)%nat
      with (S (n - S (List.length before))) by lia.
    cbn [nth].
    destruct (Nat.ltb_spec (List.length before) n); [|lia].
    destruct (Nat.ltb_spec (List.length before) (S n)); lia.
Qed.

(** X7: the check digit catches every single wrong digit: if a valid
    twelve-digit code has one digit, at any position, replaced by a different
    digit, [validate] rejects the result. *)
Theorem single_digit_error_detected (a b : string) (c c' : ascii) :
  String.length (a ++ String c b) = 12%nat ->
  allDigits (a ++ String c b) = true ->
  isDigit c' = true -> c <> c' ->
  validate (a ++ String c b) = true ->
  validate (a ++ String c' b) = false.
Proof.
  intros Hl Hd Hc' Hne Hv.
  assert (allDigits a = true /\ isDigit c = true /\ allDigits b = true)
    as [Ha [Hc Hb]].
  { rewrite allDigits_append in Hd. cbn [allDigits] in Hd.
    apply andb_true_iff in Hd as [Ha Hd].
    apply andb_true_iff in Hd as [Hc Hb]. now repeat split. }
  assert (allDigits (a ++ String c' b) = true) as Hd'.
  { rewrite allDigits_append. cbn [allDigits]. now rewrite Ha, Hc', Hb. }
  assert (String.length (a ++ String c' b) = 12%nat) as Hl'.
  { rewrite length_append in Hl |- *. exact Hl. }
  destruct (validate (a ++ String c' b)) eqn:Hv'; [|reflexivity].
  exfalso.
  apply (validate_check_equation _ Hd Hl) in Hv.
  apply (validate_check_equation _ Hd' Hl') in Hv'.
  rewrite digitsOf_append in Hv, Hv'.
  change (digitsOf (String c b)) with (digitValue c :: digitsOf b) in Hv.
  change (digitsOf (String c' b)) with (digitValue c' :: digitsOf b) in Hv'.
  pose proof (weighted_replace 12 (digitsOf a) (digitsOf b)
                (digitValue c) (digitValue c')) as Hdiff.
  fold (checkSum12 (digitsOf a ++ digitValue c :: digitsOf b)) in Hdiff.
  fold (checkSum12 (digitsOf a ++ digitValue c' :: digitsOf b)) in Hdiff.
  rewrite digitsOf_length in Hdiff.
  assert (String.length a < 12)%nat as Hk
      by (rewrite length_append in Hl; cbn [String.length] in Hl; lia).
  destruct (Nat.ltb_spec (String.length a) 12); [|lia].
  pose proof (isDigit_value c Hc) as Hr.
  pose proof (isDigit_value c' Hc') as Hr'.
  assert (digitValue c <> digitValue c') as Hdne
      by (intros Heq; apply Hne; now apply digitValue_injective).
  assert (Spec.weight (String.length a) = 3
          \/ Spec.weight (String.length a) = 1) as Hw
      by (unfold Spec.weight; destruct (Nat.even _); auto).
  set (s := checkSum12 (digitsOf a ++ digitValue c :: digitsOf b)) in *.
  set (s' := checkSum12 (digitsOf a ++ digitValue c' :: digitsOf b)) in *.
  set (w := Spec.weight (String.length a)) in *.
  clearbody s s' w.
  Z.div_mod_to_equations. destruct Hw; subst w; lia.
Qed.

Lemma single_digit_error_detected_witness :
  validate "012345678905" = true /\ validate "012346678905" = false.
Proof.
  split; [reflexivity|].
  apply (single_digit_error_detected "01234" "678905" "5" "6");
    try reflexivity.
  discriminate.
Defined.

(** ** The digit cells of the pattern *)

Lemma encodeLoop_concat (table : list string) (fullCode : string) (n i : nat)
      (encoding : string) :
  encodeLoop table fullCode n i encoding
  = encoding ++ concat (map (cellOf table fullCode) (seq i n)).
Proof.
  revert i encoding. induction n as [|n IH]; intros i encoding;
    cbn [encodeLoop seq map concat].
  - now rewrite append_empty_r.
  - rewrite IH. unfold appendValue. fold (cellOf table fullCode i).
    now rewrite append_assoc.
Qed.

Lemma cell_entry (table : list string) (fullCode : string) (i : nat) :
  table = L_CODES \/ table = R_CODES ->
  allDigits fullCode = true -> (i < String.length fullCode)%nat ->
  arrayGet table (parseInt (charAt fullCode i))
  = Some (cellOf table fullCode i)
  /\ String.length (cellOf table fullCode i) = 7%nat.
Proof.
  intros Ht Hd Hi. unfold cellOf.
  rewrite parseInt_charAt by assumption.
  assert (0 <= nth i (digitsOf fullCode) 0 <= 9) as Hr.
  { pose proof (digitsOf_nonneg fullCode Hd) as Hall.
    apply (proj1 (Forall_forall _ _) Hall), nth_In.
    now rewrite digitsOf_length. }
  destruct (table_entry table _ Ht Hr) as [code [-> [Hl _]]]. now split.
Qed.

(** The part of index [j] of a concatenation starts where the parts before
    it end. *)
Lemma concat_part (parts : list string) (j : nat) :
  (j < List.length parts)%nat ->
  String.substring (String.length (concat (firstn j parts)))
                   (String.length (nth j parts ""))
                   (concat parts)
  = nth j parts "".
Proof.
  revert j. induction parts as [|p parts IH]; intros j Hj; [simpl in Hj; lia|].
  destruct j as [|j].
  - cbn [firstn concat nth String.length]. apply prefix_append.
  - cbn [firstn concat nth]. rewrite length_append.
    rewrite substring_append_skip. apply IH. simpl in Hj. lia.
Qed.

Lemma concat_app (l l' : list string) :
  concat (l ++ l') = concat l ++ concat l'.
Proof.
  induction l as [|p l IH]; cbn [concat app]; [reflexivity|].
  now rewrite IH, append_assoc.
Qed.

Lemma encode_parts (code : string) (options : Options) (full : string) :
  normalizeInput code options = Return full ->
  encode code options
  = Return {| encoding := concat (partsOf full); fullCode := full |}.
Proof.
  intros Hn. unfold encode. rewrite Hn. cbn [bind].
  rewrite !encodeLoop_concat. do 2 f_equal.
  unfold partsOf.
  rewrite concat_app.
  change (concat ("101" :: map (cellOf L_CODES full) (seq 0 6)))
    with ("101" ++ concat (map (cellOf L_CODES full) (seq 0 6))).
  change (concat ("01010" :: map (cellOf R_CODES full) (seq 6 6) ++ ["101"]))
    with ("01010" ++ concat (map (cellOf R_CODES full) (seq 6 6) ++ ["101"])).
  rewrite concat_app. cbn [concat]. rewrite (append_empty_r "101").
  now rewrite !append_assoc.
Qed.

Ltac cell_at full Hd Hcells j :=
  first [ change (tableOf _) with L_CODES | change (tableOf _) with R_CODES ];
  match goal with
  | |- arrayGet ?tbl (parseInt (charAt full ?i)) = _ =>
      let Hget := fresh "Hget" in
      let Hlen := fresh "Hlen" in
      let Hp := fresh "Hp" in
      destruct (cell_entry tbl full i ltac:(auto) Hd ltac:(lia))
        as [Hget Hlen];
      rewrite Hget; f_equal; symmetry;
      pose proof (concat_part (partsOf full) j ltac:(simpl; lia)) as Hp;
      change (nth j (partsOf full) "") with (cellOf tbl full i) in Hp;
      rewrite Hlen in Hp;
      etransitivity; [|exact Hp];
      unfold substring; f_equal;
      unfold partsOf; cbn [seq map app firstn concat];
      rewrite ?length_append, ?Hcells by (auto; lia); reflexivity
  end.

(** The seven modules of each digit are its table entry. *)
Lemma encode_cell (full : string) (i : nat) :
  allDigits full = true -> String.length full = 12%nat -> (i < 12)%nat ->
  arrayGet (tableOf i) (parseInt (charAt full i))
  = Some (substring (cellStart i) (cellStart i + 7) (concat (partsOf full))).
Proof.
  intros Hd Hl Hi.
  assert (forall table k, table = L_CODES \/ table = R_CODES -> (k < 12)%nat ->
                          String.length (cellOf table full k) = 7%nat)
    as Hcells.
  { intros table k Ht Hk. apply cell_entry; [assumption | assumption | lia]. }
  destruct i as [|i]; [cell_at full Hd Hcells 1%nat|].
  destruct i as [|i]; [cell_at full Hd Hcells 2%nat|].
  destruct i as [|i]; [cell_at full Hd Hcells 3%nat|].
  destruct i as [|i]; [cell_at full Hd Hcells 4%nat|].
  destruct i as [|i]; [cell_at full Hd Hcells 5%nat|].
  destruct i as [|i]; [cell_at full Hd Hcells 6%nat|].
  destruct i as [|i]; [cell_at full Hd Hcells 8%nat|].
  destruct i as [|i]; [cell_at full Hd Hcells 9%nat|].
  destruct i as [|i]; [cell_at full Hd Hcells 10%nat|].
  destruct i as [|i]; [cell_at full Hd Hcells 11%nat|].
  destruct i as [|i]; [cell_at full Hd Hcells 12%nat|].
  destruct i as [|i]; [cell_at full Hd Hcells 13%nat|].
  lia.
Qed.

Lemma encode_is_parts (code : string) (options : Options) (e : Encoded) :
  encode code options = Return e ->
  encoding e = concat (partsOf (fullCode e))
  /\ String.length (fullCode e) = 12%nat /\ allDigits (fullCode e) = true.
Proof.
  intros He.
  destruct (encode_inversion _ _ _ He) as [Hn _].
  destruct (normalizeInput_canonical _ _ _ Hn) as [Hl [Hd _]].
  rewrite (encode_parts _ _ _ Hn) in He. injection He as He.
  split; [|now split]. now rewrite <- He at 1.
Qed.

(** X8: in the pattern [encode] returns, the seven modules that start at
    index [3 + 7 i] for the first six digits, and at [8 + 7 i] for the last
    six, are the entry of digit [i] of the code in the L-table, respectively
    the R-table. *)
Theorem encode_digit_cells (code : string) (options : Options) (e : Encoded)
        (i : nat) :
  encode code options = Return e -> (i < 12)%nat ->
  arrayGet (tableOf i) (parseInt (charAt (fullCode e) i))
  = Some (substring (cellStart i) (cellStart i + 7) (encoding e)).
Proof.
  intros He Hi.
  destruct (encode_is_parts _ _ _ He) as [-> [Hl Hd]].
  now apply encode_cell.
Qed.

Lemma encode_digit_cells_witness :
  encode "012345678905" noOptions
  = Return {| encoding :=
                "10100011010011001001001101111010100011011000101010101000010001001001000111010011100101001110101";
              fullCode := "012345678905" |}
  /\ arrayGet L_CODES (Int 3) = Some "0111101"
  /\ arrayGet R_CODES (Int 5) = Some "1001110".
Proof.
  split; [reflexivity|].
  split.
  - exact (encode_digit_cells "012345678905" noOptions _ 3 eq_refl
             ltac:(lia)).
  - exact (encode_digit_cells "012345678905" noOptions _ 11 eq_refl
             ltac:(lia)).
Defined.

Lemma table_injective (table : list string) (d d' : Z) :
  table = L_CODES \/ table = R_CODES -> 0 <= d <= 9 -> 0 <= d' <= 9 ->
  arrayGet table (Int d) = arrayGet table (Int d') -> d = d'.
Proof.
  intros [-> | ->] Hd Hd'; each_digit d Hd; each_digit d' Hd';
    intros H; try reflexivity; discriminate H.
Qed.

Lemma string_ext (s t : string) :
  String.length s = String.length t ->
  (forall i, (i < String.length s)%nat -> charAt s i = charAt t i) ->
  s = t.
Proof.
  unfold charAt. revert t.
  induction s as [|x s IH]; intros [|y t]; simpl; intros Hl Hall;
    try discriminate; [reflexivity|].
  pose proof (Hall 0%nat ltac:(lia)) as H0. injection H0 as ->.
  f_equal. apply IH; [lia|].
  intros i Hi. apply (Hall (S i)). lia.
Qed.

(** X9: the pattern determines the code: two inputs, under any policies,
    that [encode] turns into the same pattern have the same twelve-digit
    code. *)
Theorem encode_injective (code code' : string) (options options' : Options)
        (e e' : Encoded) :
  encode code options = Return e -> encode code' options' = Return e' ->
  encoding e = encoding e' -> fullCode e = fullCode e'.
Proof.
  intros He He' Hp.
  destruct (encode_is_parts _ _ _ He) as [Hparts [Hl Hd]].
  destruct (encode_is_parts _ _ _ He') as [Hparts' [Hl' Hd']].
  rewrite Hparts, Hparts' in Hp.
  apply string_ext; [congruence|].
  intros i Hi. rewrite Hl in Hi.
  pose proof (encode_cell (fullCode e) i Hd Hl Hi) as Hc.
  pose proof (encode_cell (fullCode e') i Hd' Hl' Hi) as Hc'.
  rewrite Hp in Hc. rewrite <- Hc' in Hc.
  destruct (charAt_defined (fullCode e) i ltac:(lia)) as [c Hat].
  destruct (charAt_defined (fullCode e') i ltac:(lia)) as [c' Hat'].
  pose proof (charAt_digit _ _ _ Hd Hat) as Hdc.
  pose proof (charAt_digit _ _ _ Hd' Hat') as Hdc'.
  rewrite Hat, Hat' in Hc |- *.
  rewrite (parseInt_digit c Hdc), (parseInt_digit c' Hdc') in Hc.
  f_equal. apply digitValue_injective.
  apply (table_injective (tableOf i)).
  - unfold tableOf. destruct (i <? 6)%nat; auto.
  - now apply isDigit_value.
  - now apply isDigit_value.
  - exact Hc.
Qed.

Lemma encode_injective_witness :
  encode "01234567890" noOptions
  = encode "0-12345-67890-0" (policy "recalculate")
  /\ forall e e',
      encode "01234567890" noOptions = Return e ->
      encode "0-12345-67890-0" (policy "recalculate") = Return e' ->
      encoding e = encoding e' -> fullCode e = fullCode e'.
Proof.
  split; [reflexivity|].
  intros e e'.
  exact (encode_injective "01234567890" "0-12345-67890-0"
           noOptions (policy "recalculate") e e').
Defined.

(** ** Failures *)

(** Under a policy other than [validate], only the length can be wrong. *)
Lemma normalizeInput_throws (raw : string) (options : Options)
      (message : string) :
  checksumModeOf options <> "validate" ->
  (normalizeInput raw options = Throw message
   <-> (12 < String.length (stripNonDigits raw))%nat
       /\ message = "UPC-A requires 11 or 12 digits").
Proof.
  intros Hm. apply String.eqb_neq in Hm.
  destruct (Nat.eq_dec (String.length (stripNonDigits raw)) 12) as [H12|H12].
  { rewrite (other_twelve raw options H12 Hm).
    split; [discriminate | intros [Hgt _]; lia]. }
  unfold normalizeInput.
  destruct (Nat.eqb_spec (String.length (stripNonDigits raw)) 11).
  { split; [discriminate | intros [Hgt _]; lia]. }
  destruct (Nat.eqb_spec (String.length (stripNonDigits raw)) 12); [lia|].
  destruct (Nat.ltb_spec (String.length (stripNonDigits raw)) 11).
  { split; [discriminate | intros [Hgt _]; lia]. }
  split.
  - intros [= <-]. split; [lia | reflexivity].
  - intros [_ ->]. reflexivity.
Qed.

Lemma encode_throws (code : string) (options : Options) (message : string) :
  encode code options = Throw message
  <-> normalizeInput code options = Throw message.
Proof.
  unfold encode. destruct (normalizeInput code options); cbn [bind].
  - split; discriminate.
  - split; intros [= ->]; reflexivity.
Qed.

Section RenderingFailures.

Context {num : Type} {N : Number num}.
Local Open Scope num_scope.

Lemma render_throws (canvas : Canvas num) (code : string)
      (options : Opt.t num) (message : string) :
  render (Some canvas) code options = Throw message
  <-> encode code
        (policy (checksumSetting (mergeOptions DEFAULTS options)))
      = Throw message.
Proof.
  unfold render, policy.
  destruct (encode code _); cbn [bind];
    [split; discriminate | split; intros [= ->]; reflexivity].
Qed.

Lemma renderSVG_throws (svg : Svg num) (code : string)
      (options : Opt.t num) (message : string) :
  renderSVG (Some svg) code options = Throw message
  <-> encode code
        (policy (checksumSetting (mergeOptions DEFAULTS options)))
      = Throw message.
Proof.
  unfold renderSVG, policy.
  destruct (encode code _); cbn [bind];
    [split; discriminate | split; intros [= ->]; reflexivity].
Qed.

(** X10: a renderer given no element fails on that before it looks at the
    code; given an element, the two renderers fail on the same inputs with
    the same message, the one of [normalizeInput]; and unless the caller
    asks for the policy [validate], the only failure left is the length
    error on more than twelve digits, so that even an empty code is
    rendered. *)
Theorem render_failures (canvas : Canvas num) (svg : Svg num)
        (code : string) (options : Opt.t num) (message : string) :
  let chosen := checksumSetting (mergeOptions DEFAULTS options) in
  render None code options = Throw "Invalid canvas element"
  /\ renderSVG None code options = Throw "Invalid SVG element"
  /\ (render (Some canvas) code options = Throw message
      <-> normalizeInput code (policy chosen) = Throw message)
  /\ (renderSVG (Some svg) code options = Throw message
      <-> normalizeInput code (policy chosen) = Throw message)
  /\ (chosen <> "validate" ->
      (render (Some canvas) code options = Throw message
       <-> (12 < String.length (stripNonDigits code))%nat
           /\ message = "UPC-A requires 11 or 12 digits")).
Proof.
  intros chosen.
  split; [reflexivity|]. split; [reflexivity|].
  split; [|split].
  - rewrite render_throws. apply encode_throws.
  - rewrite renderSVG_throws. apply encode_throws.
  - intros Hne. rewrite render_throws, encode_throws.
    apply normalizeInput_throws.
    unfold checksumModeOf, policy. cbn [checksum]. fold chosen.
    destruct (String.eqb chosen ""); [discriminate | exact Hne].
Qed.

End RenderingFailures.

Lemma render_failures_witness :
  checksumSetting (mergeOptions DEFAULTS (@Opt.none float)) <> "validate"
  /\ render (Some blankCanvas) "1234567890123" Opt.none
     = Throw "UPC-A requires 11 or 12 digits"
  /\ forall message, render (Some blankCanvas) "" Opt.none <> Throw message.
Proof.
  assert (checksumSetting (mergeOptions DEFAULTS (@Opt.none float))
          <> "validate") as Hne by discriminate.
  split; [exact Hne|]. split.
  - apply (proj2 (proj2 (proj2 (proj2
             (render_failures blankCanvas emptySvg "1234567890123" Opt.none
                "UPC-A requires 11 or 12 digits")))) Hne).
    split; [simpl; lia | reflexivity].
  - intros message Hm.
    apply (proj2 (proj2 (proj2 (proj2
             (render_failures blankCanvas emptySvg "" Opt.none message)))) Hne)
      in Hm as [Hgt _].
    simpl in Hgt. lia.
Defined.

(** ** The human-readable digits *)

Section RenderingTexts.

Context {num : Type} {N : Number num}.
Local Open Scope num_scope.






End RenderingTexts.


(** ** Rendering into an element that already has content *)

Section RenderingAgain.

Context {num : Type} {N : Number num}.
Local Open Scope num_scope.

Lemma setAttribute_present (name : string) (value : AttrValue num)
      (attrs : Attrs num) :
  getAttribute name attrs = Some value ->
  setAttribute name value attrs = attrs.
Proof.
  induction attrs as [|[k v] rest IH]; simpl; [discriminate|].
  destruct (String.eqb k name).
  - now intros [= ->].
  - intros Hg. now rewrite IH.
Qed.

Lemma sized_again (attrs : Attrs num) (w h : num) :
  sized (sized attrs w h) w h = sized attrs w h.
Proof.
  unfold sized at 1.
  rewrite (setAttribute_present "xmlns").
  2:{ unfold sized. rewrite !getAttribute_set_other by discriminate.
      apply getAttribute_set_same. }
  rewrite (setAttribute_present "width").
  2:{ unfold sized. rewrite !getAttribute_set_other by discriminate.
      apply getAttribute_set_same. }
  rewrite (setAttribute_present "height").
  2:{ unfold sized. rewrite !getAttribute_set_other by discriminate.
      apply getAttribute_set_same. }
  apply setAttribute_present. unfold sized. apply getAttribute_set_same.
Qed.

Lemma sized_other (attrs : Attrs num) (w h : num) (name : string) :
  name <> "xmlns" -> name <> "width" -> name <> "height" ->
  name <> "viewBox" ->
  getAttribute name (sized attrs w h) = getAttribute name attrs.
Proof.
  intros H1 H2 H3 H4. unfold sized.
  now rewrite !getAttribute_set_other by assumption.
Qed.

(** What [renderSVG] leaves in the element: the attributes it had, with the
    four it sets, and children that do not depend on the element. *)
Lemma renderSVG_shape (svg : Svg num) (code : string) (options : Opt.t num)
      (sv : Svg num) :
  renderSVG (Some svg) code options = Return sv ->
  exists w h,
    svgAttrs sv = sized (svgAttrs svg) w h
    /\ forall svg',
        renderSVG (Some svg') code options
        = Return {| svgAttrs := sized (svgAttrs svg') w h;
                    svgChildren := svgChildren sv |}.
Proof.
  unfold renderSVG.
  destruct (encode code _) as [e|m]; cbn [bind]; [|discriminate].
  intros [= <-]. do 2 eexists. split; reflexivity.
Qed.

(** X12: [renderSVG] drops the children the element had and keeps every
    attribute other than [xmlns], [width], [height] and [viewBox]; rendering
    the same code with the same options into the element it has just filled
    leaves the element as it is. *)
Theorem renderSVG_again (svg : Svg num) (code : string)
        (options : Opt.t num) (sv : Svg num) :
  renderSVG (Some svg) code options = Return sv ->
  renderSVG (Some sv) code options = Return sv
  /\ (forall name,
         name <> "xmlns" -> name <> "width" -> name <> "height" ->
         name <> "viewBox" ->
         getAttribute name (svgAttrs sv) = getAttribute name (svgAttrs svg))
  /\ getAttribute "xmlns" (svgAttrs sv) = Some (StrValue SVG_NS)
  /\ (forall children,
         exists sv',
           renderSVG (Some {| svgAttrs := svgAttrs svg;
                              svgChildren := children |}) code options
           = Return sv'
           /\ svgChildren sv' = svgChildren sv).
Proof.
  intros Hr. destruct (renderSVG_shape _ _ _ _ Hr) as [w [h [Ha Hany]]].
  split; [|split; [|split]].
  - rewrite (Hany sv), Ha, sized_again. rewrite <- Ha. now destruct sv.
  - intros name H1 H2 H3 H4. rewrite Ha. now apply sized_other.
  - rewrite Ha. unfold sized.
    rewrite !getAttribute_set_other by discriminate.
    apply getAttribute_set_same.
  - intros children. eexists. split; [apply Hany | reflexivity].
Qed.

End RenderingAgain.

Lemma renderSVG_again_witness :
  exists sv,
    renderSVG (Some {| svgAttrs := [("id", StrValue "barcode")];
                       svgChildren := [TextNode [] None] |})
              "012345678905" (@Opt.none float)
    = Return sv
    /\ renderSVG (Some sv) "012345678905" Opt.none = Return sv
    /\ getAttribute "id" (svgAttrs sv) = Some (StrValue "barcode").
Proof.
  destruct (renderSVG (Some {| svgAttrs := [("id", StrValue "barcode")];
                               svgChildren := [TextNode [] None] |})
                      "012345678905" (@Opt.none float)) as [sv|m] eqn:Hr;
    [|vm_compute in Hr; discriminate Hr].
  exists sv. split; [reflexivity|].
  destruct (renderSVG_again _ _ _ _ Hr) as [Hagain [Hkeep _]].
  split; [exact Hagain|].
  rewrite Hkeep by discriminate. reflexivity.
Defined.

(** ** formatUPC on any input *)

Lemma groupOf_twelve (x : string) :
  allDigits x = true -> String.length x = 12%nat ->
  stripNonDigits (groupOf x) = x
  /\ String.length (groupOf x) = 15%nat
  /\ charAt (groupOf x) 1 = Some "-"%char
  /\ charAt (groupOf x) 7 = Some "-"%char
  /\ charAt (groupOf x) 13 = Some "-"%char.
Proof.
  intros Hd Hl.
  destruct x as [|c0 x]; [discriminate|].
  do 11 (destruct x as [|? x]; [discriminate|]).
  destruct x; [|discriminate].
  cbn [allDigits] in Hd.
  repeat (apply andb_true_iff in Hd as [? Hd]).
  split; [|repeat split].
  cbn. change (isDigit "-") with false. cbn iota.
  repeat match goal with H : isDigit _ = true |- _ => rewrite H; clear H end.
  reflexivity.
Qed.

Lemma formatUPC_unfold (raw : string) :
  formatUPC raw
  = bind (if negb (String.length (stripNonDigits raw) =? 12)%nat
          then normalizeInput raw noOptions
          else Return (stripNonDigits raw))
         (fun c => Return (groupOf c)).
Proof.
  unfold formatUPC, formatUPCWith. now rewrite normalizeInput_sanitized.
Qed.

(** X13: [formatUPC] fails only on more than twelve digits, with the
    length error.  What it returns has fifteen characters, hyphens at
    indices 1, 7 and 13 and twelve digits, which are the normalized code
    when the input did not have twelve digits; and it is a fixed point:
    formatting a formatted string returns it unchanged. *)
Theorem formatUPC_round_trip (raw : string) :
  (forall message,
      formatUPC raw = Throw message
      <-> (12 < String.length (stripNonDigits raw))%nat
          /\ message = "UPC-A requires 11 or 12 digits")
  /\ (forall formatted,
         formatUPC raw = Return formatted ->
         String.length formatted = 15%nat
         /\ charAt formatted 1 = Some "-"%char
         /\ charAt formatted 7 = Some "-"%char
         /\ charAt formatted 13 = Some "-"%char
         /\ String.length (stripNonDigits formatted) = 12%nat
         /\ formatUPC formatted = Return formatted
         /\ (String.length (stripNonDigits raw) <> 12%nat ->
             normalizeInput raw noOptions
             = Return (stripNonDigits formatted))).
Proof.
  assert (forall x, allDigits x = true -> String.length x = 12%nat ->
                    String.length (groupOf x) = 15%nat
                    /\ charAt (groupOf x) 1 = Some "-"%char
                    /\ charAt (groupOf x) 7 = Some "-"%char
                    /\ charAt (groupOf x) 13 = Some "-"%char
                    /\ String.length (stripNonDigits (groupOf x)) = 12%nat
                    /\ formatUPC (groupOf x) = Return (groupOf x)
                    /\ stripNonDigits (groupOf x) = x) as Hgroup.
  { intros x Hd Hl.
    destruct (groupOf_twelve x Hd Hl) as [Hs [Hlen [H1 [H7 H13]]]].
    repeat (split; [assumption|]).
    split; [now rewrite Hs|]. split; [|exact Hs].
    rewrite formatUPC_unfold, Hs, Hl. reflexivity. }
  rewrite formatUPC_unfold.
  destruct (Nat.eqb_spec (String.length (stripNonDigits raw)) 12) as [H12|H12];
    cbn [negb].
  - cbn [bind]. split.
    + intros message. split; [discriminate | intros [Hgt _]; lia].
    + intros formatted [= <-].
      destruct (Hgroup _ (allDigits_stripNonDigits raw) H12)
        as [Hlen [H1 [H7 [H13 [Hsl [Hfix _]]]]]].
      repeat (split; [assumption|]). intros Hne. contradiction.
  - destruct (normalizeInput raw noOptions) as [full|m] eqn:Hn; cbn [bind].
    + destruct (normalizeInput_canonical _ _ _ Hn) as [Hl [Hd _]].
      split.
      * intros message. split; [discriminate|]. intros [Hgt ->].
        assert (checksumModeOf noOptions <> "validate") as Hne
            by discriminate.
        pose proof (proj2 (normalizeInput_throws raw noOptions _ Hne)
                          (conj Hgt eq_refl)) as Ht.
        rewrite Hn in Ht. discriminate Ht.
      * intros formatted [= <-].
        destruct (Hgroup _ Hd Hl) as [Hlen [H1 [H7 [H13 [Hsl [Hfix Hs]]]]]].
        repeat (split; [assumption|]). intros _. now rewrite Hs.
    + split; [|discriminate].
      intros message.
      rewrite <- (normalizeInput_throws raw noOptions message)
        by discriminate.
      rewrite Hn. split; intros [= ->]; reflexivity.
Qed.

Lemma formatUPC_round_trip_witness :
  formatUPC "12345" = Return "0-00000-12345-7"
  /\ formatUPC "0-00000-12345-7" = Return "0-00000-12345-7"
  /\ normalizeInput "12345" noOptions = Return "000000123457".
Proof.
  split; [reflexivity|].
  destruct (proj2 (formatUPC_round_trip "12345") "0-00000-12345-7" eq_refl)
    as [_ [_ [_ [_ [_ [Hfix Hnorm]]]]]].
  split; [exact Hfix|].
  apply Hnorm. simpl. lia.
Defined.

(** ** Digits beyond the eleventh *)

Lemma stripNonDigits_append (a b : string) :
  stripNonDigits (a ++ b) = stripNonDigits a ++ stripNonDigits b.
Proof.
  induction a as [|c a IH]; simpl; [reflexivity|].
  destruct (isDigit c); simpl; now rewrite IH.
Qed.

(** X14: [calculateChecksum] reads eleven digits and no more: whatever is
    written after an input that has eleven digits, a twelfth digit
    included, the result is the check digit of those eleven. *)
Theorem calculateChecksum_truncates (payload rest : string) :
  String.length (stripNonDigits payload) = 11%nat ->
  calculateChecksum (payload ++ rest) = calculateChecksum payload.
Proof.
  intros Hl. unfold calculateChecksum.
  rewrite stripNonDigits_append, length_append, Hl.
  destruct (Nat.ltb_spec (11 + String.length (stripNonDigits rest)) 11);
    [lia|].
  cbn [Nat.ltb Nat.leb]. unfold substring. cbn [Nat.sub].
  rewrite <- Hl at 1. rewrite prefix_append.
  rewrite (prefix_whole 11 (stripNonDigits payload)) by lia.
  reflexivity.
Qed.

Lemma calculateChecksum_truncates_witness :
  String.length (stripNonDigits "0-12345-67890") = 11%nat
  /\ calculateChecksum "0-12345-67890-0" = Int 5.
Proof.
  split; [reflexivity|].
  change (calculateChecksum ("0-12345-67890" ++ "-0") = Int 5).
  rewrite (calculateChecksum_truncates "0-12345-67890" "-0" eq_refl).
  reflexivity.
Defined.
